(** * ECS_Planets: the no-cache development server (serve.py)

    serve.py is a fourteen-line script: a request handler class
    [NoCacheHandler] that overrides one hook, [end_headers], of the standard
    library's [http.server.SimpleHTTPRequestHandler], and a main block that
    binds an [HTTPServer] on 127.0.0.1:3000, prints one line and serves
    forever.

    What a response looks like is decided by the override together with the
    base classes it is plugged into, so this development embeds both:
    - serve.py itself ([NoCacheHandler.end_headers], [main]), and
    - the methods of CPython's Lib/http/server.py and Lib/socketserver.py
      that call the hook or that main calls (send_response, send_header,
      end_headers, flush_headers, send_error, send_head, list_directory,
      do_GET, do_HEAD, handle_one_request, handle, finish_request,
      _handle_request_noblock, serve_forever, TCPServer.__init__),
      translated method by method from the CPython 3.11 sources.

    The operating system (file system, clock, sockets) and the library
    functions that only format or parse text (translate_path, guess_type,
    formatdate, ...) are inputs of the model: the first as a record [os.t],
    the second as a class [Python] the definitions are generic in. *)

From Stdlib Require Import String Ascii List Bool Arith ZArith Lia DecimalString.
Import ListNotations.
Local Open Scope list_scope.
Local Open Scope string_scope.

(** ** Python text and bytes

    Python [str] and [bytes] values are both modelled by [string]: a
    sequence of 8-bit characters.  Text that comes from a request is decoded
    as iso-8859-1 by the library, so every character of it is below 256, and
    encoding it as latin-1 gives the same sequence back. *)
Module Py.

Definition CRLF : string := String "013"%char (String "010"%char "").
Definition NL : string := String "010"%char "".
Definition DQ : string := String "034"%char "".

(** [str(n)], and [%d] applied to a non-negative integer. *)
Definition str (n : nat) : string := NilEmpty.string_of_uint (Nat.to_uint n).

(** [b"".join(l)]. *)
Definition join (l : list string) : string := String.concat "" l.

(** [c.lower()] for a character below 256: A-Z and the accented capitals
    of latin-1 (all of 192..222 but the multiplication sign) move up by 32. *)
Definition lower_char (c : ascii) : ascii :=
  let n := nat_of_ascii c in
  if (((65 <=? n) && (n <=? 90)) || ((192 <=? n) && (n <=? 222) && negb (n =? 215)))%nat
  then ascii_of_nat (n + 32)
  else c.

Fixpoint lower (s : string) : string :=
  match s with
  | EmptyString => EmptyString
  | String c s' => String (lower_char c) (lower s')
  end.

(** [s.endswith(suffix)]. *)
Fixpoint endswith (s suffix : string) : bool :=
  (s =? suffix) ||
  match s with
  | EmptyString => false
  | String _ s' => endswith s' suffix
  end.

(** [html.escape(s, quote=False)]. *)
Fixpoint escape (s : string) : string :=
  match s with
  | EmptyString => EmptyString
  | String c s' =>
      (if Ascii.eqb c "&" then "&amp;"
       else if Ascii.eqb c "<" then "&lt;"
       else if Ascii.eqb c ">" then "&gt;"
       else String c "") ++ escape s'
  end.

(** [s.encode('UTF-8', 'replace')] on text whose characters are below 256:
    one byte below 128, two bytes from 128 on. *)
Fixpoint encode_utf8 (s : string) : string :=
  match s with
  | EmptyString => EmptyString
  | String c s' =>
      let n := nat_of_ascii c in
      (if (n <? 128)%nat then String c ""
       else String (ascii_of_nat (192 + n / 64))
              (String (ascii_of_nat (128 + n mod 64)) ""))
      ++ encode_utf8 s'
  end.

(** [posixpath.join(a, b)]. *)
Definition path_join (a b : string) : string :=
  if String.prefix "/" b then b
  else if (a =? "") || endswith a "/" then a ++ b
  else a ++ "/" ++ b.

(** [k in m] and [m[k]] on an [email.message.Message]: header names are
    compared without regard to case, the first match wins. *)
Fixpoint get (m : list (string * string)) (k : string) : option string :=
  match m with
  | [] => None
  | (k', v) :: m' => if lower k' =? lower k then Some v else get m' k
  end.

Definition contains (m : list (string * string)) (k : string) : bool :=
  match get m k with Some _ => true | None => false end.

End Py.

(** ** The operating system, as the handlers see it *)
Module os.

(** What [os.fstat] reports and send_head reads: [fs[6]], the size, and
    [st_mtime], here in whole seconds (send_head drops the microseconds
    before it compares). *)
Record stat_result := { st_size : nat; st_mtime : Z }.

(** A binary stream open for reading: the bytes that reading it to the end
    delivers, and whether a read then raises OSError instead of reporting
    the end of the file. *)
Record stream := { s_bytes : string; s_fails : bool }.

Record file := { f_stream : stream; f_stat : stat_result }.

(** One snapshot of the machine: the clock and the file system.
    [open_rb p] is [open(p, 'rb')] and [listdir p] is [os.listdir(p)];
    [None] stands for an OSError (no such file, permission denied, ...). *)
Record t := {
  time : Z;
  isdir : string -> bool;
  isfile : string -> bool;
  open_rb : string -> option file;
  listdir : string -> option (list string)
}.

End os.

(** ** Library functions taken as given

    Pure functions of the Python installation whose results the handlers
    pass on without looking inside. *)
Variant tzinfo := tz_naive | tz_utc | tz_other.

(** A [datetime]: its instant in seconds since the epoch (for a naive one,
    its fields read as UTC) and its time zone. *)
Record datetime := { dt_seconds : Z; dt_tzinfo : tzinfo }.

(** [urllib.parse.SplitResult]. *)
Record SplitResult := {
  sr_scheme : string; sr_netloc : string; sr_path : string;
  sr_query : string; sr_fragment : string
}.

Class Python := {
  (** ["Python/" + sys.version.split()[0]] *)
  sys_version : string;
  (** [repr(s)], as [%r] formats a string *)
  repr : string -> string;
  (** [email.utils.formatdate(t, usegmt=True)] *)
  formatdate : Z -> string;
  (** [email.utils.parsedate_to_datetime]; [None] when it raises *)
  parsedate_to_datetime : string -> option datetime;
  urlsplit : string -> SplitResult;
  urlunsplit : SplitResult -> string;
  (** [SimpleHTTPRequestHandler.translate_path], from [self.directory]
      and the request path *)
  translate_path : string -> string -> string;
  (** [SimpleHTTPRequestHandler.guess_type] *)
  guess_type : string -> string;
  (** [sys.getfilesystemencoding()] *)
  getfilesystemencoding : string;
  (** the page list_directory builds and encodes, from the directory's
      path, the request path and the directory's entries *)
  listing_page : os.t -> string -> string -> list string -> string
}.

(** ** The request handler object *)

(** A request as [parse_request] leaves it in [self.requestline],
    [self.command], [self.path], [self.request_version] and [self.headers].
    A request line of two words (GET and a path) is an HTTP/0.9 request:
    its version stays at the default, HTTP/0.9. *)
Record request := {
  rq_requestline : string;
  rq_command : string;
  rq_path : string;
  rq_version : string;
  rq_headers : list (string * string)
}.

(** The calls that reach the file system and can fail with OSError, in the
    order they are made. *)
Variant fs_call := fs_open (p : string) | fs_listdir (p : string).

(** The attributes of a handler instance that the methods below read or
    assign.  [rfile] holds the requests still to be read from the
    connection, [wfile] the [write] calls made on the socket, oldest first
    (wbufsize is 0: every write goes out as it is made); [stderr] is what
    the instance wrote to [sys.stderr].  A handler that has no
    [_headers_buffer] attribute yet has the empty one here. *)
Record handler := {
  directory : string;
  rfile : list request;
  req : request;
  close_connection : bool;
  _headers_buffer : list string;
  wfile : list string;
  stderr : list string;
  fs_calls : list fs_call
}.

Definition set_request (rest : list request) (r : request) (self : handler) : handler :=
  {| directory := directory self; rfile := rest; req := r;
     close_connection := close_connection self;
     _headers_buffer := _headers_buffer self; wfile := wfile self;
     stderr := stderr self; fs_calls := fs_calls self |}.

Definition set_close_connection (b : bool) (self : handler) : handler :=
  {| directory := directory self; rfile := rfile self; req := req self;
     close_connection := b;
     _headers_buffer := _headers_buffer self; wfile := wfile self;
     stderr := stderr self; fs_calls := fs_calls self |}.

Definition set_headers_buffer (l : list string) (self : handler) : handler :=
  {| directory := directory self; rfile := rfile self; req := req self;
     close_connection := close_connection self;
     _headers_buffer := l; wfile := wfile self;
     stderr := stderr self; fs_calls := fs_calls self |}.

(** [self._headers_buffer.append(line)]. *)
Definition buffer_append (line : string) (self : handler) : handler :=
  set_headers_buffer (_headers_buffer self ++ [line])%list self.

(** [self.wfile.write(data)]. *)
Definition write (data : string) (self : handler) : handler :=
  {| directory := directory self; rfile := rfile self; req := req self;
     close_connection := close_connection self;
     _headers_buffer := _headers_buffer self; wfile := (wfile self ++ [data])%list;
     stderr := stderr self; fs_calls := fs_calls self |}.

Definition write_stderr (line : string) (self : handler) : handler :=
  {| directory := directory self; rfile := rfile self; req := req self;
     close_connection := close_connection self;
     _headers_buffer := _headers_buffer self; wfile := wfile self;
     stderr := (stderr self ++ [line])%list; fs_calls := fs_calls self |}.

Definition record_call (c : fs_call) (self : handler) : handler :=
  {| directory := directory self; rfile := rfile self; req := req self;
     close_connection := close_connection self;
     _headers_buffer := _headers_buffer self; wfile := wfile self;
     stderr := stderr self; fs_calls := (fs_calls self ++ [c])%list |}.

(** The methods a subclass may override and the base classes call through
    [self]: of those, serve.py overrides [end_headers] only. *)
Module Self.
Class methods := { end_headers : handler -> handler }.

(** The attributes [parse_request] assigns. *)
Definition requestline (self : handler) : string := rq_requestline (req self).
Definition command (self : handler) : string := rq_command (req self).
Definition path (self : handler) : string := rq_path (req self).
Definition request_version (self : handler) : string := rq_version (req self).
Definition headers (self : handler) : list (string * string) := rq_headers (req self).
End Self.

(** Exceptions a handler can let escape. *)
Variant exn := OSError.

(** ** http.server.BaseHTTPRequestHandler *)
Module BaseHTTPRequestHandler.

Definition protocol_version : string := "HTTP/1.0".
Definition default_request_version : string := "HTTP/0.9".
Definition error_content_type : string := "text/html;charset=utf-8".

(** [self.responses]: the phrase and the description of a status code
    (the rows of http.HTTPStatus that these handlers send). *)
Definition responses (code : nat) : option (string * string) :=
  if (code =? 200)%nat then Some ("OK", "Request fulfilled, document follows")
  else if (code =? 301)%nat then
    Some ("Moved Permanently", "Object moved permanently -- see URI list")
  else if (code =? 304)%nat then
    Some ("Not Modified", "Document has not changed since given time")
  else if (code =? 400)%nat then
    Some ("Bad Request", "Bad request syntax or unsupported method")
  else if (code =? 404)%nat then Some ("Not Found", "Nothing matches the given URI")
  else if (code =? 501)%nat then
    Some ("Not Implemented", "Server does not support this operation")
  else None.

(** [self.error_message_format % {'code': .., 'message': .., 'explain': ..}]
    with DEFAULT_ERROR_MESSAGE. *)
Definition error_message_format (code : nat) (message explain : string) : string :=
  "<!DOCTYPE HTML>" ++ Py.NL ++
  "<html lang=" ++ Py.DQ ++ "en" ++ Py.DQ ++ ">" ++ Py.NL ++
  "    <head>" ++ Py.NL ++
  "        <meta charset=" ++ Py.DQ ++ "utf-8" ++ Py.DQ ++ ">" ++ Py.NL ++
  "        <title>Error response</title>" ++ Py.NL ++
  "    </head>" ++ Py.NL ++
  "    <body>" ++ Py.NL ++
  "        <h1>Error response</h1>" ++ Py.NL ++
  "        <p>Error code: " ++ Py.str code ++ "</p>" ++ Py.NL ++
  "        <p>Message: " ++ message ++ ".</p>" ++ Py.NL ++
  "        <p>Error code explanation: " ++ Py.str code ++ " - " ++ explain ++ ".</p>" ++ Py.NL ++
  "    </body>" ++ Py.NL ++
  "</html>" ++ Py.NL.

(** [log_message]: one line on [sys.stderr].  The line stands for the
    formatted message; the client address and the time stamp that precede
    it, and the escaping of control characters, are left out. *)
Definition log_message (message : string) (self : handler) : handler :=
  write_stderr message self.

Definition log_request (code : nat) (self : handler) : handler :=
  log_message (Py.DQ ++ Self.requestline self ++ Py.DQ ++ " " ++ Py.str code ++ " -") self.

Definition log_error (message : string) (self : handler) : handler :=
  log_message message self.

Definition send_response_only (code : nat) (message : option string)
    (self : handler) : handler :=
  if negb (Self.request_version self =? "HTTP/0.9") then
    let message :=
      match message with
      | Some m => m
      | None => match responses code with Some (phrase, _) => phrase | None => "" end
      end in
    buffer_append
      (protocol_version ++ " " ++ Py.str code ++ " " ++ message ++ Py.CRLF) self
  else self.

Definition send_header (keyword value : string) (self : handler) : handler :=
  let self :=
    if negb (Self.request_version self =? "HTTP/0.9") then
      buffer_append (keyword ++ ": " ++ value ++ Py.CRLF) self
    else self in
  if Py.lower keyword =? "connection" then
    if Py.lower value =? "close" then set_close_connection true self
    else if Py.lower value =? "keep-alive" then set_close_connection false self
    else self
  else self.

Definition flush_headers (self : handler) : handler :=
  set_headers_buffer [] (write (Py.join (_headers_buffer self)) self).

Definition end_headers (self : handler) : handler :=
  if negb (Self.request_version self =? "HTTP/0.9") then
    flush_headers (buffer_append Py.CRLF self)
  else self.

Section Methods.
Context {python : Python} {cls : Self.methods}.

Definition server_version : string := "SimpleHTTP/0.6".

Definition version_string : string := server_version ++ " " ++ sys_version.

Definition date_time_string (timestamp : Z) : string := formatdate timestamp.

Definition send_response (w : os.t) (code : nat) (message : option string)
    (self : handler) : handler :=
  let self := log_request code self in
  let self := send_response_only code message self in
  let self := send_header "Server" version_string self in
  send_header "Date" (date_time_string (os.time w)) self.

Definition send_error (w : os.t) (code : nat) (message explain : option string)
    (self : handler) : handler :=
  let '(shortmsg, longmsg) :=
    match responses code with Some r => r | None => ("???", "???") end in
  let message := match message with Some m => m | None => shortmsg end in
  let explain := match explain with Some e => e | None => longmsg end in
  let self := log_error ("code " ++ Py.str code ++ ", message " ++ message) self in
  let self := send_response w code (Some message) self in
  let self := send_header "Connection" "close" self in
  let body :=
    if ((200 <=? code) && negb ((code =? 204) || (code =? 205) || (code =? 304)))%nat
    then Some (Py.encode_utf8
                 (error_message_format code (Py.escape message) (Py.escape explain)))
    else None in
  let self :=
    match body with
    | Some b =>
        send_header "Content-Length" (Py.str (String.length b))
          (send_header "Content-Type" error_content_type self)
    | None => self
    end in
  let self := Self.end_headers self in
  match body with
  | Some b =>
      if negb (Self.command self =? "HEAD") && negb (b =? "") then write b self else self
  | None => self
  end.

End Methods.

End BaseHTTPRequestHandler.

(** ** http.server.SimpleHTTPRequestHandler *)
Module SimpleHTTPRequestHandler.
Import BaseHTTPRequestHandler.

Section Methods.
Context {python : Python} {cls : Self.methods}.

(** [shutil.copyfileobj(source, self.wfile)]: the bytes read are written
    out as they come, and an error while reading escapes after the bytes
    before it have been written.  The blocks of one copy are taken together
    as one write; an empty source makes no write. *)
Definition copyfile (source : os.stream) (self : handler) : handler * option exn :=
  let self :=
    if os.s_bytes source =? "" then self else write (os.s_bytes source) self in
  (self, if os.s_fails source then Some OSError else None).

Definition list_directory (w : os.t) (path : string) (self : handler)
    : handler * option os.stream :=
  let self := record_call (fs_listdir path) self in
  match os.listdir w path with
  | None =>
      (send_error w 404 (Some "No permission to list directory") None self, None)
  | Some list =>
      let enc := getfilesystemencoding in
      let encoded := listing_page w path (Self.path self) list in
      let self := send_response w 200 None self in
      let self := send_header "Content-type" ("text/html; charset=" ++ enc) self in
      let self := send_header "Content-Length" (Py.str (String.length encoded)) self in
      (Self.end_headers self, Some {| os.s_bytes := encoded; os.s_fails := false |})
  end.

(** The loop of send_head over index.html and index.htm: the first that
    is a file. *)
Definition find_index (w : os.t) (path : string) : option string :=
  if os.isfile w (Py.path_join path "index.html")
  then Some (Py.path_join path "index.html")
  else if os.isfile w (Py.path_join path "index.htm")
  then Some (Py.path_join path "index.htm")
  else None.

(** The test of send_head under its comment [Use browser cache if
    possible]: there is an If-Modified-Since header and no If-None-Match
    header, the date parses, it is in UTC once a date without a zone has
    been given that zone, and the file was last modified at or before it.
    [headers] is [self.headers]. *)
Definition not_modified_since (headers : list (string * string))
    (fs : os.stat_result) : bool :=
  if Py.contains headers "If-Modified-Since"
     && negb (Py.contains headers "If-None-Match")
  then
    match Py.get headers "If-Modified-Since" with
    | Some value =>
        match parsedate_to_datetime value with
        | None => false
        | Some ims =>
            let ims :=
              match dt_tzinfo ims with
              | tz_naive => {| dt_seconds := dt_seconds ims; dt_tzinfo := tz_utc |}
              | _ => ims
              end in
            match dt_tzinfo ims with
            | tz_utc => (os.st_mtime fs <=? dt_seconds ims)%Z
            | _ => false
            end
        end
    | None => false
    end
  else false.

(** send_head from [ctype = self.guess_type(path)] on: [path] is the file
    to send. *)
Definition send_head_file (w : os.t) (path : string) (self : handler)
    : handler * option os.stream :=
  let ctype := guess_type path in
  if Py.endswith path "/" then
    (send_error w 404 (Some "File not found") None self, None)
  else
    let self := record_call (fs_open path) self in
    match os.open_rb w path with
    | None => (send_error w 404 (Some "File not found") None self, None)
    | Some f =>
        let fs := os.f_stat f in
        if not_modified_since (Self.headers self) fs then
          let self := send_response w 304 None self in
          (Self.end_headers self, None)
        else
          let self := send_response w 200 None self in
          let self := send_header "Content-type" ctype self in
          let self := send_header "Content-Length" (Py.str (os.st_size fs)) self in
          let self :=
            send_header "Last-Modified" (date_time_string (os.st_mtime fs)) self in
          (Self.end_headers self, Some (os.f_stream f))
    end.

Definition send_head (w : os.t) (self : handler) : handler * option os.stream :=
  let path := translate_path (directory self) (Self.path self) in
  if os.isdir w path then
    let parts := urlsplit (Self.path self) in
    if negb (Py.endswith (sr_path parts) "/") then
      let self := send_response w 301 None self in
      let new_parts :=
        {| sr_scheme := sr_scheme parts; sr_netloc := sr_netloc parts;
           sr_path := sr_path parts ++ "/";
           sr_query := sr_query parts; sr_fragment := sr_fragment parts |} in
      let new_url := urlunsplit new_parts in
      let self := send_header "Location" new_url self in
      let self := send_header "Content-Length" "0" self in
      (Self.end_headers self, None)
    else
      match find_index w path with
      | Some index => send_head_file w index self
      | None => list_directory w path self
      end
  else send_head_file w path self.

Definition do_GET (w : os.t) (self : handler) : handler * option exn :=
  match send_head w self with
  | (self, Some f) => copyfile f self
  | (self, None) => (self, None)
  end.

Definition do_HEAD (w : os.t) (self : handler) : handler * option exn :=
  match send_head w self with
  | (self, _) => (self, None)
  end.

(** parse_request on a request it accepts.  It sets [close_connection] to
    True on entry; the branches that would set it to False all test
    [self.protocol_version >= "HTTP/1.1"], and the protocol version of
    these classes is HTTP/1.0. *)
Definition parse_request (r : request) (rest : list request) (self : handler)
    : handler :=
  set_close_connection true (set_request rest r self).

(** handle_one_request.  An empty [rfile] is a connection on which nothing
    (more) arrives.  The classes define do_GET and do_HEAD and no other
    do_ method. *)
Definition handle_one_request (w : os.t) (self : handler) : handler * option exn :=
  match rfile self with
  | [] => (set_close_connection true self, None)
  | r :: rest =>
      let self := parse_request r rest self in
      if Self.command self =? "GET" then do_GET w self
      else if Self.command self =? "HEAD" then do_HEAD w self
      else
        (send_error w 501
           (Some ("Unsupported method (" ++ repr (Self.command self) ++ ")"))
           None self, None)
  end.

(** The loop [while not self.close_connection: self.handle_one_request()];
    every turn but the last takes a request off [rfile]. *)
Fixpoint handle_loop (fuel : nat) (w : os.t) (self : handler) : handler * option exn :=
  match fuel with
  | O => (self, None)
  | S fuel =>
      if close_connection self then (self, None)
      else
        match handle_one_request w self with
        | (self, Some e) => (self, Some e)
        | (self, None) => handle_loop fuel w self
        end
  end.

Definition handle (w : os.t) (self : handler) : handler * option exn :=
  let self := set_close_connection true self in
  match handle_one_request w self with
  | (self, Some e) => (self, Some e)
  | (self, None) => handle_loop (S (List.length (rfile self))) w self
  end.

(** [RequestHandlerClass(request, client_address, server)]: the
    constructors set [self.directory] to [os.getcwd()] (serve.py passes no
    directory) and call [handle]. *)
Definition init (getcwd : string) (requests : list request) : handler :=
  {| directory := getcwd; rfile := requests;
     req := {| rq_requestline := ""; rq_command := ""; rq_path := "";
               rq_version := default_request_version; rq_headers := [] |};
     close_connection := true; _headers_buffer := []; wfile := [];
     stderr := []; fs_calls := [] |}.

End Methods.

End SimpleHTTPRequestHandler.

(** The handler class of the library as it stands: nothing overridden. *)
Definition SimpleHTTPRequestHandler_class : Self.methods :=
  {| Self.end_headers := BaseHTTPRequestHandler.end_headers |}.

(** ** serve.py: class NoCacheHandler *)
Module NoCacheHandler.
Import BaseHTTPRequestHandler.

Definition end_headers (self : handler) : handler :=
  let self := send_header "Cache-Control" "no-cache, no-store, must-revalidate" self in
  let self := send_header "Pragma" "no-cache" self in
  let self := send_header "Expires" "0" self in
  BaseHTTPRequestHandler.end_headers self.

End NoCacheHandler.

Definition NoCacheHandler_class : Self.methods :=
  {| Self.end_headers := NoCacheHandler.end_headers |}.

(** ** socketserver and http.server.HTTPServer *)

(** An accepted connection: the machine as it is while the connection is
    served, and the requests the client sends on it. *)
Record connection := { c_os : os.t; c_requests : list request }.

(** The process: its working directory, what it printed, the sockets it
    tried to bind, the address it listens on, what it wrote on each
    accepted connection, and its exit status once it has ended. *)
Record process := {
  getcwd : string;
  stdout : list string;
  sys_stderr : list string;
  bind_calls : list (string * nat);
  listening : option (string * nat);
  sent : list (list string);
  exit_status : option nat
}.

(** What the network stack answers when the server socket is set up:
    whether [bind] and [listen] succeed (when not, they raise OSError). *)
Record net := { bind_ok : string * nat -> bool; listen_ok : bool }.

Record server := {
  server_address : string * nat;
  RequestHandlerClass : Self.methods
}.

(** [print(line)] *)
Definition print (line : string) (p : process) : process :=
  {| getcwd := getcwd p; stdout := (stdout p ++ [(line ++ Py.NL)%string])%list;
     sys_stderr := sys_stderr p; bind_calls := bind_calls p;
     listening := listening p; sent := sent p; exit_status := exit_status p |}.

Definition print_stderr (lines : list string) (p : process) : process :=
  {| getcwd := getcwd p; stdout := stdout p;
     sys_stderr := (sys_stderr p ++ lines)%list; bind_calls := bind_calls p;
     listening := listening p; sent := sent p; exit_status := exit_status p |}.

Module TCPServer.

(** [self.socket.bind(self.server_address)], then
    [self.server_address = self.socket.getsockname()]: for a port other
    than 0 that is the address asked for. *)
Definition server_bind (n : net) (address : string * nat) (p : process)
    : process * option exn :=
  ({| getcwd := getcwd p; stdout := stdout p; sys_stderr := sys_stderr p;
      bind_calls := (bind_calls p ++ [address])%list;
      listening := listening p; sent := sent p; exit_status := exit_status p |},
   if bind_ok n address then None else Some OSError).

(** [self.socket.listen(self.request_queue_size)] *)
Definition server_activate (n : net) (address : string * nat) (p : process)
    : process * option exn :=
  if listen_ok n then
    ({| getcwd := getcwd p; stdout := stdout p; sys_stderr := sys_stderr p;
        bind_calls := bind_calls p;
        listening := Some address; sent := sent p; exit_status := exit_status p |},
     None)
  else (p, Some OSError).

(** [TCPServer.__init__] with bind_and_activate: an exception of
    server_bind or server_activate closes the socket and is raised again. *)
Definition init (n : net) (address : string * nat) (handler_class : Self.methods)
    (p : process) : process * (server + exn) :=
  match server_bind n address p with
  | (p, Some e) => (p, inr e)
  | (p, None) =>
      match server_activate n address p with
      | (p, Some e) => (p, inr e)
      | (p, None) =>
          (p, inl {| server_address := address; RequestHandlerClass := handler_class |})
      end
  end.

End TCPServer.

Module BaseServer.
Section Serve.
Context {python : Python}.

(** [finish_request]: a handler instance is made for the connection and runs
    to its end ([__init__] calls [handle]). *)
Definition finish_request (srv : server) (c : connection) (p : process)
    : handler * option exn :=
  SimpleHTTPRequestHandler.handle (cls := RequestHandlerClass srv) (c_os c)
    (SimpleHTTPRequestHandler.init (getcwd p) (c_requests c)).

(** [handle_error]: a traceback on [sys.stderr], between two rules (the
    client address and the frames of the traceback are left out). *)
Definition handle_error (e : exn) (p : process) : process :=
  print_stderr
    ["----------------------------------------";
     "Exception occurred during processing of request";
     "OSError";
     "----------------------------------------"] p.

(** [_handle_request_noblock] for a connection that [accept] returned:
    process_request, with [except Exception: self.handle_error(...)].  What
    the handler wrote to the socket and to [sys.stderr] is kept in the
    process. *)
Definition _handle_request_noblock (srv : server) (c : connection) (p : process)
    : process :=
  let '(h, e) := finish_request srv c p in
  let p :=
    {| getcwd := getcwd p; stdout := stdout p;
       sys_stderr := (sys_stderr p ++ stderr h)%list; bind_calls := bind_calls p;
       listening := listening p; sent := (sent p ++ [wfile h])%list;
       exit_status := exit_status p |} in
  match e with
  | Some e => handle_error e p
  | None => p
  end.

(** [serve_forever], over the connections that arrive, in their order. *)
Definition serve_forever (srv : server) (arrivals : list connection) (p : process)
    : process :=
  fold_left (fun p c => _handle_request_noblock srv c p) arrivals p.

End Serve.
End BaseServer.

(** ** serve.py: the main block *)

(** The process as the interpreter starts the script in the directory
    [cwd]. *)
Definition start (cwd : string) : process :=
  {| getcwd := cwd; stdout := []; sys_stderr := []; bind_calls := [];
     listening := None; sent := []; exit_status := None |}.

(** An exception that nothing catches ends the interpreter: the traceback
    goes to [sys.stderr] and the exit status is 1. *)
Definition uncaught (e : exn) (p : process) : process :=
  let p := print_stderr ["Traceback (most recent call last):"; "OSError"] p in
  {| getcwd := getcwd p; stdout := stdout p; sys_stderr := sys_stderr p;
     bind_calls := bind_calls p; listening := listening p; sent := sent p;
     exit_status := Some 1 |}.

Section Main.
Context {python : Python}.

Definition main (n : net) (arrivals : list connection) (p : process) : process :=
  match TCPServer.init n ("127.0.0.1", 3000) NoCacheHandler_class p with
  | (p, inr e) => uncaught e p
  | (p, inl server) =>
      let p := print "Dev server: http://localhost:3000 (no-cache)" p in
      BaseServer.serve_forever server arrivals p
  end.

End Main.

(** ** A machine to run the handlers on

    A Python installation and a small document root, for evaluating the
    definitions above on concrete requests.  The library functions are
    given for the inputs used here: request paths without query, fragment,
    escapes or dot segments, for which translate_path appends the path to
    the directory, and dates on 1 January 1970. *)
Module Sample.

Definition two_digits (n : nat) : string :=
  if (n <? 10)%nat then "0" ++ Py.str n else Py.str n.

Definition python : Python :=
  {| sys_version := "Python/3.11.2";
     repr := fun s => "'" ++ s ++ "'";
     formatdate := fun t =>
       let n := Z.to_nat (t mod 86400) in
       "Thu, 01 Jan 1970 " ++ two_digits (n / 3600) ++ ":" ++
       two_digits ((n / 60) mod 60) ++ ":" ++ two_digits (n mod 60) ++ " GMT";
     parsedate_to_datetime := fun s =>
       if s =? "Thu, 01 Jan 1970 00:05:00 GMT"
       then Some {| dt_seconds := 300; dt_tzinfo := tz_utc |}
       else None;
     urlsplit := fun p =>
       {| sr_scheme := ""; sr_netloc := ""; sr_path := p;
          sr_query := ""; sr_fragment := "" |};
     urlunsplit := sr_path;
     translate_path := fun directory p => directory ++ p;
     guess_type := fun p =>
       if Py.endswith p ".html" then "text/html"
       else if Py.endswith p ".js" then "text/javascript"
       else "application/octet-stream";
     getfilesystemencoding := "utf-8";
     listing_page := fun _ _ p entries => "Directory listing for " ++ p ++ Py.NL |}.

(** A document root /srv with two files: app.js, and notes.txt, which the
    server process has no permission to read.  [now] is the time of day,
    [content] what app.js holds and [mtime] when it was last written. *)
Definition root (now : Z) (content : string) (mtime : Z) : os.t :=
  {| os.time := now;
     os.isdir := fun p => (p =? "/srv") || (p =? "/srv/");
     os.isfile := fun p => (p =? "/srv/app.js") || (p =? "/srv/notes.txt");
     os.open_rb := fun p =>
       if p =? "/srv/app.js" then
         Some {| os.f_stream := {| os.s_bytes := content; os.s_fails := false |};
                 os.f_stat := {| os.st_size := String.length content;
                                 os.st_mtime := mtime |} |}
       else None;
     os.listdir := fun p =>
       if (p =? "/srv") || (p =? "/srv/") then Some ["app.js"; "notes.txt"] else None |}.

Definition get (version path : string) (headers : list (string * string)) : request :=
  {| rq_requestline :=
       "GET " ++ path ++ (if version =? "HTTP/0.9" then "" else " " ++ version);
     rq_command := "GET"; rq_path := path; rq_version := version;
     rq_headers := headers |}.

Definition request_of (method path : string) : request :=
  {| rq_requestline := method ++ " " ++ path ++ " HTTP/1.1";
     rq_command := method; rq_path := path; rq_version := "HTTP/1.1";
     rq_headers := [("Host", "localhost:3000")] |}.

End Sample.

(** * Properties *)

(** ** Vocabulary *)

(** The three headers serve.py adds, as [send_header] receives them. *)
Definition no_cache_headers : list (string * string) :=
  [("Cache-Control", "no-cache, no-store, must-revalidate");
   ("Pragma", "no-cache");
   ("Expires", "0")].

(** The line [send_header] buffers for a header, and the one
    [send_response_only] buffers for a status. *)
Definition header_line (kv : string * string) : string :=
  fst kv ++ ": " ++ snd kv ++ Py.CRLF.

Definition status_line (code : nat) (message : string) : string :=
  "HTTP/1.0 " ++ Py.str code ++ " " ++ message ++ Py.CRLF.

(** A header block as [flush_headers] writes it: the status line, the
    headers of the base classes, the headers [extra] that a subclass adds
    in its end_headers, and the blank line. *)
Definition header_block (code : nat) (message : string)
    (base extra : list (string * string)) : string :=
  Py.join (status_line code message
           :: (map header_line base ++ map header_line extra ++ [Py.CRLF])%list).

(** A handler class whose end_headers sends the headers [extra] and then
    calls the end_headers of the base class. *)
Definition sends (extra : list (string * string)) : Self.methods :=
  {| Self.end_headers := fun self =>
       BaseHTTPRequestHandler.end_headers
         (fold_left
            (fun self kv => BaseHTTPRequestHandler.send_header (fst kv) (snd kv) self)
            extra self) |}.

(** No header of [extra] is a Connection header (which send_header also
    acts upon). *)
Definition plain (extra : list (string * string)) : Prop :=
  Forall (fun kv => (Py.lower (fst kv) =? "connection") = false) extra.

(** The state of a handler after it has answered: the header block and
    the [body] writes are on the socket, [log] on stderr, the calls [calls]
    were made, the buffer is empty again. *)
Definition responded (extra : list (string * string)) (code : nat) (message : string)
    (base : list (string * string)) (body log : list string) (calls : list fs_call)
    (close : bool) (self : handler) : handler :=
  {| directory := directory self; rfile := rfile self; req := req self;
     close_connection := close;
     _headers_buffer := [];
     wfile := (wfile self ++ header_block code message base extra :: body)%list;
     stderr := (stderr self ++ log)%list;
     fs_calls := (fs_calls self ++ calls)%list |}.

(** Unfolds the assignments to a handler's attributes. *)
Ltac attrs :=
  unfold BaseHTTPRequestHandler.flush_headers, BaseHTTPRequestHandler.log_request,
    BaseHTTPRequestHandler.log_error, BaseHTTPRequestHandler.log_message,
    buffer_append, set_headers_buffer, write, write_stderr, record_call,
    set_close_connection, set_request,
    Self.request_version, Self.command, Self.path, Self.headers, Self.requestline in *;
  cbn [directory rfile req close_connection _headers_buffer wfile stderr fs_calls
       rq_requestline rq_command rq_path rq_version rq_headers negb fst snd] in *.

Section HandlerFacts.
Context {python : Python}.
Import BaseHTTPRequestHandler SimpleHTTPRequestHandler.

Lemma NoCacheHandler_sends : NoCacheHandler_class = sends no_cache_headers.
Proof. reflexivity. Qed.

Lemma SimpleHTTPRequestHandler_sends : SimpleHTTPRequestHandler_class = sends [].
Proof. reflexivity. Qed.

Lemma send_header_plain k v self :
  (Self.request_version self =? "HTTP/0.9") = false ->
  (Py.lower k =? "connection") = false ->
  send_header k v self = buffer_append (header_line (k, v)) self.
Proof.
  intros Hv Hk. unfold send_header. rewrite Hv, Hk. reflexivity.
Qed.

Lemma send_extra extra : forall self,
  (Self.request_version self =? "HTTP/0.9") = false ->
  plain extra ->
  fold_left (fun self kv => send_header (fst kv) (snd kv) self) extra self
  = set_headers_buffer (_headers_buffer self ++ map header_line extra)%list self.
Proof.
  induction extra as [|[k v] extra IH]; intros self Hv Hp.
  - destruct self; attrs. cbn. now rewrite app_nil_r.
  - inversion Hp as [|? ? Hk Hp']; subst. cbn [fold_left fst snd].
    rewrite send_header_plain by assumption.
    rewrite IH by assumption.
    destruct self; attrs. cbn. now rewrite <- app_assoc.
Qed.

Lemma end_headers_sends extra self :
  (Self.request_version self =? "HTTP/0.9") = false ->
  plain extra ->
  Self.end_headers (methods := sends extra) self
  = set_headers_buffer []
      (write (Py.join (_headers_buffer self ++ map header_line extra ++ [Py.CRLF])%list)
         self).
Proof.
  intros Hv Hp. cbn [Self.end_headers sends].
  rewrite send_extra by assumption.
  unfold end_headers.
  destruct self as [d rf rq cc buf wf err calls]; attrs.
  rewrite Hv. attrs. now rewrite <- app_assoc.
Qed.

(** The page send_error sends for a status, and the headers before it. *)
Definition error_page (code : nat) (message : string) : string :=
  Py.encode_utf8
    (error_message_format code (Py.escape message)
       (Py.escape (match responses code with Some r => snd r | None => "???" end))).

Definition error_headers (w : os.t) (code : nat) (message : string)
    : list (string * string) :=
  [("Server", version_string); ("Date", date_time_string (os.time w));
   ("Connection", "close"); ("Content-Type", error_content_type);
   ("Content-Length", Py.str (String.length (error_page code message)))].

Definition error_log (code : nat) (message : string) (self : handler) : list string :=
  ["code " ++ Py.str code ++ ", message " ++ message;
   Py.DQ ++ Self.requestline self ++ Py.DQ ++ " " ++ Py.str code ++ " -"].

Lemma error_page_not_empty code message explain :
  (Py.encode_utf8 (error_message_format code message explain) =? "") = false.
Proof. reflexivity. Qed.

Lemma send_response_only_eq code message self :
  (Self.request_version self =? "HTTP/0.9") = false ->
  send_response_only code (Some message) self
  = buffer_append (status_line code message) self.
Proof. intros Hv. unfold send_response_only. now rewrite Hv. Qed.

Lemma send_response_only_default code self :
  (Self.request_version self =? "HTTP/0.9") = false ->
  send_response_only code None self
  = buffer_append
      (status_line code
         (match responses code with Some r => fst r | None => "" end)) self.
Proof.
  intros Hv. unfold send_response_only. rewrite Hv.
  now destruct (responses code) as [[? ?]|].
Qed.

Lemma send_header_close self :
  (Self.request_version self =? "HTTP/0.9") = false ->
  send_header "Connection" "close" self
  = set_close_connection true (buffer_append (header_line ("Connection", "close")) self).
Proof. intros Hv. unfold send_header. now rewrite Hv. Qed.

(** Compares two handler states, given as assignments to a handler whose
    attributes are known. *)
Ltac settle :=
  cbv [responded header_block set_headers_buffer write write_stderr buffer_append
       set_close_connection record_call set_request log_request log_error
       log_message flush_headers error_log error_headers
       Self.requestline Self.command Self.path Self.request_version Self.headers
       directory rfile req close_connection _headers_buffer wfile stderr fs_calls
       negb andb];
  cbn [app map];
  rewrite <- ?app_assoc; cbn [app]; rewrite ?app_nil_r;
  try reflexivity.

(** Rewrites the calls that fill and flush the header buffer into
    assignments, a call whose handler is already in that form first. *)
Ltac buffered Hv Hp :=
  unfold send_response;
  repeat match goal with
  | |- context [send_response_only ?c (Some ?m) ?s] =>
      rewrite (send_response_only_eq c m s) by exact Hv
  | |- context [send_response_only ?c None ?s] =>
      rewrite (send_response_only_default c s) by exact Hv
  | |- context [send_header "Connection" "close" ?s] =>
      rewrite (send_header_close s) by exact Hv
  | |- context [send_header ?k ?v ?s] =>
      rewrite (send_header_plain k v s) by first [exact Hv | reflexivity]
  | |- context [Self.end_headers (methods := sends ?x) ?s] =>
      rewrite (end_headers_sends x s) by first [exact Hv | exact Hp]
  end.

Lemma send_error_eq extra w code message self :
  (Self.request_version self =? "HTTP/0.9") = false ->
  plain extra ->
  _headers_buffer self = [] ->
  ((200 <=? code) && negb ((code =? 204) || (code =? 205) || (code =? 304)))%nat = true ->
  send_error (cls := sends extra) w code (Some message) None self
  = responded extra code message (error_headers w code message)
      (if Self.command self =? "HEAD" then [] else [error_page code message])
      (error_log code message self) [] true self.
Proof.
  intros Hv Hp Hbuf Hcode. unfold send_error, error_headers, error_page.
  destruct (responses code) as [[short long]|]; cbn [snd]; rewrite Hcode; cbv zeta.
  all: buffered Hv Hp.
  all: destruct self as [d rf rq cc buf wf err calls];
    cbn [_headers_buffer] in Hbuf; subst buf.
  all: repeat match goal with
       | |- context [Self.command ?s] =>
           progress change (Self.command s) with (rq_command rq)
       end.
  all: rewrite error_page_not_empty.
  all: destruct (rq_command rq =? "HEAD"); settle.
Qed.

(** *** send_head, case by case *)

Definition log_line (code : nat) (self : handler) : string :=
  Py.DQ ++ Self.requestline self ++ Py.DQ ++ " " ++ Py.str code ++ " -".

Definition not_found_body (self : handler) : list string :=
  if Self.command self =? "HEAD" then [] else [error_page 404 "File not found"].

Section Cases.
Variables (extra : list (string * string)) (w : os.t) (self : handler).
Hypothesis Hv : (Self.request_version self =? "HTTP/0.9") = false.
Hypothesis Hp : plain extra.
Hypothesis Hbuf : _headers_buffer self = [].
Hypothesis Hcc : close_connection self = true.

Lemma send_head_file_slash fspath :
  Py.endswith fspath "/" = true ->
  send_head_file (cls := sends extra) w fspath self
  = (responded extra 404 "File not found" (error_headers w 404 "File not found")
       (not_found_body self) (error_log 404 "File not found" self) [] true self,
     None).
Proof.
  intros Hs. unfold send_head_file. rewrite Hs.
  now rewrite send_error_eq by first [exact Hv | exact Hp | exact Hbuf | reflexivity].
Qed.

Lemma send_head_file_missing fspath :
  Py.endswith fspath "/" = false ->
  os.open_rb w fspath = None ->
  send_head_file (cls := sends extra) w fspath self
  = (responded extra 404 "File not found" (error_headers w 404 "File not found")
       (not_found_body self) (error_log 404 "File not found" self)
       [fs_open fspath] true self,
     None).
Proof.
  intros Hs Ho. unfold send_head_file. rewrite Hs, Ho.
  rewrite send_error_eq by first [exact Hv | exact Hp | exact Hbuf | reflexivity].
  f_equal. unfold not_found_body.
  destruct self as [d rf rq cc buf wf err calls]. settle.
Qed.

Lemma send_head_file_not_modified fspath f :
  Py.endswith fspath "/" = false ->
  os.open_rb w fspath = Some f ->
  not_modified_since (Self.headers self) (os.f_stat f) = true ->
  send_head_file (cls := sends extra) w fspath self
  = (responded extra 304 "Not Modified"
       [("Server", version_string); ("Date", date_time_string (os.time w))]
       [] [log_line 304 self] [fs_open fspath] true self,
     None).
Proof.
  intros Hs Ho Hm. unfold send_head_file. rewrite Hs, Ho.
  change (Self.headers (record_call (fs_open fspath) self))
    with (Self.headers self).
  rewrite Hm. buffered Hv Hp. f_equal.
  destruct self as [d rf rq cc buf wf err calls].
  cbn [_headers_buffer close_connection] in Hbuf, Hcc. subst buf cc.
  unfold log_line. settle.
Qed.

Lemma send_head_file_ok fspath f :
  Py.endswith fspath "/" = false ->
  os.open_rb w fspath = Some f ->
  not_modified_since (Self.headers self) (os.f_stat f) = false ->
  send_head_file (cls := sends extra) w fspath self
  = (responded extra 200 "OK"
       [("Server", version_string); ("Date", date_time_string (os.time w));
        ("Content-type", guess_type fspath);
        ("Content-Length", Py.str (os.st_size (os.f_stat f)));
        ("Last-Modified", date_time_string (os.st_mtime (os.f_stat f)))]
       [] [log_line 200 self] [fs_open fspath] true self,
     Some (os.f_stream f)).
Proof.
  intros Hs Ho Hm. unfold send_head_file. rewrite Hs, Ho.
  change (Self.headers (record_call (fs_open fspath) self))
    with (Self.headers self).
  rewrite Hm. buffered Hv Hp. f_equal.
  destruct self as [d rf rq cc buf wf err calls].
  cbn [_headers_buffer close_connection] in Hbuf, Hcc. subst buf cc.
  unfold log_line. settle.
Qed.

Lemma list_directory_denied fspath :
  os.listdir w fspath = None ->
  list_directory (cls := sends extra) w fspath self
  = (responded extra 404 "No permission to list directory"
       (error_headers w 404 "No permission to list directory")
       (if Self.command self =? "HEAD" then []
        else [error_page 404 "No permission to list directory"])
       (error_log 404 "No permission to list directory" self)
       [fs_listdir fspath] true self,
     None).
Proof.
  intros Hl. unfold list_directory. rewrite Hl.
  rewrite send_error_eq by first [exact Hv | exact Hp | exact Hbuf | reflexivity].
  f_equal. destruct self as [d rf rq cc buf wf err calls]. settle.
Qed.

Lemma list_directory_ok fspath entries :
  os.listdir w fspath = Some entries ->
  list_directory (cls := sends extra) w fspath self
  = (responded extra 200 "OK"
       [("Server", version_string); ("Date", date_time_string (os.time w));
        ("Content-type", "text/html; charset=" ++ getfilesystemencoding);
        ("Content-Length",
         Py.str (String.length (listing_page w fspath (Self.path self) entries)))]
       [] [log_line 200 self] [fs_listdir fspath] true self,
     Some {| os.s_bytes := listing_page w fspath (Self.path self) entries;
             os.s_fails := false |}).
Proof.
  intros Hl. unfold list_directory. rewrite Hl. cbv zeta.
  buffered Hv Hp. f_equal.
  destruct self as [d rf rq cc buf wf err calls].
  cbn [_headers_buffer close_connection] in Hbuf, Hcc. subst buf cc.
  unfold log_line. settle.
Qed.

Lemma send_head_redirect :
  os.isdir w (translate_path (directory self) (Self.path self)) = true ->
  Py.endswith (sr_path (urlsplit (Self.path self))) "/" = false ->
  send_head (cls := sends extra) w self
  = (responded extra 301 "Moved Permanently"
       [("Server", version_string); ("Date", date_time_string (os.time w));
        ("Location",
         urlunsplit
           {| sr_scheme := sr_scheme (urlsplit (Self.path self));
              sr_netloc := sr_netloc (urlsplit (Self.path self));
              sr_path := sr_path (urlsplit (Self.path self)) ++ "/";
              sr_query := sr_query (urlsplit (Self.path self));
              sr_fragment := sr_fragment (urlsplit (Self.path self)) |});
        ("Content-Length", "0")]
       [] [log_line 301 self] [] true self,
     None).
Proof.
  intros Hd Hs. unfold send_head. rewrite Hd, Hs. cbv zeta. cbn [negb].
  buffered Hv Hp. f_equal.
  destruct self as [d rf rq cc buf wf err calls].
  cbn [_headers_buffer close_connection] in Hbuf, Hcc. subst buf cc.
  unfold log_line. settle.
Qed.

Lemma unsupported_method :
  send_error (cls := sends extra) w 501
    (Some ("Unsupported method (" ++ repr (Self.command self) ++ ")")) None self
  = responded extra 501 ("Unsupported method (" ++ repr (Self.command self) ++ ")")
      (error_headers w 501 ("Unsupported method (" ++ repr (Self.command self) ++ ")"))
      (if Self.command self =? "HEAD" then []
       else [error_page 501 ("Unsupported method (" ++ repr (Self.command self) ++ ")")])
      (error_log 501 ("Unsupported method (" ++ repr (Self.command self) ++ ")") self)
      [] true self.
Proof.
  now rewrite send_error_eq by first [exact Hv | exact Hp | exact Hbuf | reflexivity].
Qed.

End Cases.

(** *** Every answer has one shape *)

(** The headers the base classes send. *)
Definition base_header (kv : string * string) : Prop :=
  In (fst kv)
    ["Server"; "Date"; "Connection"; "Content-Type"; "Content-Length";
     "Content-type"; "Last-Modified"; "Location"].

(** [method], run from [self] under any class that adds plain headers in
    its end_headers, returns [result] and leaves one answer behind, the same
    for all those classes but for the added headers. *)
Definition answers {A : Type} (self : handler)
    (method : Self.methods -> handler * A) (result : A) : Prop :=
  exists (code : nat) (message : string) (base : list (string * string))
         (body log : list string) (calls : list fs_call),
    Forall base_header base /\
    (forall extra, plain extra ->
       method (sends extra)
       = (responded extra code message base body log calls true self, result)).

Ltac answer_by lemma :=
  eexists; unfold answers; do 6 eexists; split; cycle 1;
  [ intros extra Hp; eapply lemma; eassumption
  | unfold error_headers; repeat constructor; cbn; tauto ].

Section Shape.
Variables (w : os.t) (self : handler).
Hypothesis Hv : (Self.request_version self =? "HTTP/0.9") = false.
Hypothesis Hbuf : _headers_buffer self = [].
Hypothesis Hcc : close_connection self = true.

Lemma send_head_file_answers fspath :
  exists result,
    answers self (fun cls => send_head_file (cls := cls) w fspath self) result.
Proof.
  destruct (Py.endswith fspath "/") eqn:Hs.
  - answer_by send_head_file_slash.
  - destruct (os.open_rb w fspath) as [f|] eqn:Ho.
    + destruct (not_modified_since (Self.headers self) (os.f_stat f)) eqn:Hm.
      * answer_by send_head_file_not_modified.
      * answer_by send_head_file_ok.
    + answer_by send_head_file_missing.
Qed.

Lemma list_directory_answers fspath :
  exists result,
    answers self (fun cls => list_directory (cls := cls) w fspath self) result.
Proof.
  destruct (os.listdir w fspath) as [entries|] eqn:Hl.
  - answer_by list_directory_ok.
  - answer_by list_directory_denied.
Qed.

Lemma send_head_answers :
  exists result, answers self (fun cls => send_head (cls := cls) w self) result.
Proof.
  destruct (os.isdir w (translate_path (directory self) (Self.path self))) eqn:Hd.
  - destruct (Py.endswith (sr_path (urlsplit (Self.path self))) "/") eqn:Hs.
    + unfold send_head. rewrite Hd, Hs. cbn [negb].
      destruct (find_index w (translate_path (directory self) (Self.path self))).
      * apply send_head_file_answers.
      * apply list_directory_answers.
    + answer_by send_head_redirect.
  - unfold send_head. rewrite Hd. apply send_head_file_answers.
Qed.

End Shape.

Lemma copyfile_responded f extra code message base body log calls self :
  copyfile f (responded extra code message base body log calls true self)
  = (responded extra code message base
       (body ++ (if os.s_bytes f =? "" then [] else [os.s_bytes f]))%list
       log calls true self,
     if os.s_fails f then Some OSError else None).
Proof.
  unfold copyfile. destruct (os.s_bytes f =? ""); f_equal.
  - now rewrite app_nil_r.
  - unfold responded, write. cbn. f_equal. now rewrite <- app_assoc.
Qed.

Lemma do_GET_answers w self :
  (Self.request_version self =? "HTTP/0.9") = false ->
  _headers_buffer self = [] ->
  close_connection self = true ->
  exists e, answers self (fun cls => do_GET (cls := cls) w self) e.
Proof.
  intros Hv Hbuf Hcc.
  destruct (send_head_answers w self Hv Hbuf Hcc)
    as (result & code & message & base & body & log & calls & Hb & H).
  destruct result as [f|].
  - eexists. exists code, message, base. do 3 eexists. split; [exact Hb|].
    intros extra Hp. unfold do_GET. rewrite (H extra Hp).
    apply copyfile_responded.
  - exists None, code, message, base, body, log, calls. split; [exact Hb|].
    intros extra Hp. unfold do_GET. now rewrite (H extra Hp).
Qed.

Lemma do_HEAD_answers w self :
  (Self.request_version self =? "HTTP/0.9") = false ->
  _headers_buffer self = [] ->
  close_connection self = true ->
  answers self (fun cls => do_HEAD (cls := cls) w self) None.
Proof.
  intros Hv Hbuf Hcc.
  destruct (send_head_answers w self Hv Hbuf Hcc)
    as (result & code & message & base & body & log & calls & Hb & H).
  exists code, message, base, body, log, calls. split; [exact Hb|].
  intros extra Hp. unfold do_HEAD. now rewrite (H extra Hp).
Qed.

Lemma handle_one_request_answers w self r rest :
  rfile self = r :: rest ->
  (rq_version r =? "HTTP/0.9") = false ->
  _headers_buffer self = [] ->
  exists e,
    answers (parse_request r rest self)
      (fun cls => handle_one_request (cls := cls) w self) e.
Proof.
  intros Hr Hv Hbuf. unfold handle_one_request. rewrite Hr.
  destruct (Self.command (parse_request r rest self) =? "GET").
  - now apply do_GET_answers.
  - destruct (Self.command (parse_request r rest self) =? "HEAD").
    + eexists. now apply do_HEAD_answers.
    + eexists. unfold answers. do 6 eexists. split; cycle 1.
      * intros extra Hp. f_equal.
        apply unsupported_method; [exact Hv | exact Hp | exact Hbuf].
      * unfold error_headers; repeat constructor; cbn; tauto.
Qed.

(** *** HTTP/0.9 requests *)

(** The methods that buffer headers test the request version first: on an
    HTTP/0.9 request nothing is buffered and nothing flushed, whatever the
    class adds in its end_headers. *)
Lemma close_connection_end_headers self :
  close_connection (BaseHTTPRequestHandler.end_headers self) = close_connection self.
Proof.
  unfold BaseHTTPRequestHandler.end_headers.
  now destruct (negb (Self.request_version self =? "HTTP/0.9")).
Qed.

Lemma close_connection_send_header k v self :
  (Py.lower k =? "connection") = false ->
  close_connection (send_header k v self) = close_connection self.
Proof.
  intros Hk. unfold send_header. rewrite Hk.
  now destruct (negb (Self.request_version self =? "HTTP/0.9")).
Qed.

Lemma send_error_closes w code message explain self :
  close_connection
    (send_error (cls := SimpleHTTPRequestHandler_class) w code message explain self)
  = true.
Proof.
  unfold send_error.
  destruct (responses code) as [[short long]|];
    destruct ((200 <=? code) && negb ((code =? 204) || (code =? 205) || (code =? 304)))%nat;
    cbv zeta;
    repeat match goal with
    | |- context [if ?c then write ?b ?s else ?s] =>
        replace (close_connection (if c then write b s else s))
          with (close_connection s) by (now destruct c)
    end;
    cbn [Self.end_headers SimpleHTTPRequestHandler_class];
    rewrite close_connection_end_headers;
    rewrite ?close_connection_send_header by reflexivity;
    unfold send_header at 1;
    now destruct (negb (Self.request_version _ =? "HTTP/0.9")).
Qed.

Lemma directory_end_headers self :
  directory (BaseHTTPRequestHandler.end_headers self) = directory self.
Proof.
  unfold BaseHTTPRequestHandler.end_headers.
  now destruct (negb (Self.request_version self =? "HTTP/0.9")).
Qed.

Lemma directory_send_header k v self :
  directory (send_header k v self) = directory self.
Proof.
  unfold send_header.
  destruct (negb (Self.request_version self =? "HTTP/0.9"));
    destruct (Py.lower k =? "connection"); try reflexivity;
    destruct (Py.lower v =? "close"); try reflexivity;
    destruct (Py.lower v =? "keep-alive"); reflexivity.
Qed.

Lemma send_error_directory w code message explain self :
  directory
    (send_error (cls := SimpleHTTPRequestHandler_class) w code message explain self)
  = directory self.
Proof.
  unfold send_error.
  destruct (responses code) as [[short long]|];
    destruct ((200 <=? code) && negb ((code =? 204) || (code =? 205) || (code =? 304)))%nat;
    cbv zeta;
    repeat match goal with
    | |- context [if ?c then write ?b ?s else ?s] =>
        replace (directory (if c then write b s else s))
          with (directory s) by (now destruct c)
    end;
    cbn [Self.end_headers SimpleHTTPRequestHandler_class];
    rewrite directory_end_headers;
    rewrite ?directory_send_header;
    unfold send_response; rewrite ?directory_send_header;
    unfold send_response_only;
    now destruct (negb (Self.request_version _ =? "HTTP/0.9")).
Qed.

Lemma http09_same w self r rest :
  rfile self = r :: rest ->
  rq_version r = "HTTP/0.9" ->
  handle_one_request (cls := NoCacheHandler_class) w self
  = handle_one_request (cls := SimpleHTTPRequestHandler_class) w self
  /\ close_connection
       (fst (handle_one_request (cls := SimpleHTTPRequestHandler_class) w self))
     = true
  /\ directory
       (fst (handle_one_request (cls := SimpleHTTPRequestHandler_class) w self))
     = directory self.
Proof.
  intros Hr Hv.
  destruct self as [d rf rq cc buf wf err calls].
  destruct r as [line cmd pth ver hdrs]. cbn in Hr, Hv. subst rf ver.
  unfold handle_one_request. cbn [rfile].
  unfold parse_request, set_request, set_close_connection, Self.command.
  cbn [req rq_command directory rfile close_connection _headers_buffer wfile
       stderr fs_calls].
  destruct (cmd =? "GET") eqn:Hget; [| destruct (cmd =? "HEAD") eqn:Hhead].
  3: { split; [reflexivity|].
       split; [apply send_error_closes | apply send_error_directory]. }
  all: unfold do_GET, do_HEAD, send_head; cbn [directory Self.path req rq_path].
  all: destruct (os.isdir w _).
  all: try destruct (Py.endswith (sr_path _) "/"); cbn [negb].
  all: try destruct (find_index w _).
  all: unfold send_head_file, list_directory.
  all: try destruct (Py.endswith _ "/").
  all: try destruct (os.open_rb w _); try destruct (os.listdir w _).
  all: try destruct (not_modified_since _ _).
  all: unfold copyfile.
  all: try match goal with
       | |- context [os.s_bytes ?f =? ""] => destruct (os.s_bytes f =? "")
       end.
  all: (split; [reflexivity|]); split;
       first [reflexivity
             | cbn [fst]; apply send_error_closes
             | cbn [fst]; apply send_error_directory ].
Qed.

(** *** One connection *)

(** What the server does with an accepted connection: it makes a handler
    (finish_request) and the handler runs [handle]. *)
Definition respond (cls : Self.methods) (cwd : string) (w : os.t)
    (requests : list request) : handler * option exn :=
  handle (cls := cls) w (init cwd requests).

Lemma handle_once (cls : Self.methods) w self h e :
  close_connection self = true ->
  handle_one_request (cls := cls) w self = (h, e) ->
  close_connection h = true ->
  handle (cls := cls) w self = (h, e).
Proof.
  intros Hcc H Hc. unfold handle.
  replace (set_close_connection true self) with self
    by (destruct self; cbn in Hcc; now subst).
  rewrite H. destruct e; [reflexivity|].
  cbn [handle_loop]. now rewrite Hc.
Qed.

(** The first request of a connection is the only one answered: the
    handler closes the connection after it. *)
Lemma respond_answers cwd w r rest :
  (rq_version r =? "HTTP/0.9") = false ->
  exists e,
    answers (parse_request r rest (init cwd (r :: rest)))
      (fun cls => respond cls cwd w (r :: rest)) e.
Proof.
  intros Hv.
  destruct (handle_one_request_answers w (init cwd (r :: rest)) r rest
              eq_refl Hv eq_refl)
    as (e & code & message & base & body & log & calls & Hb & H).
  exists e, code, message, base, body, log, calls. split; [exact Hb|].
  intros extra Hp. unfold respond.
  apply handle_once; [reflexivity | now apply H | reflexivity].
Qed.

Lemma respond_http09 cwd w r rest :
  rq_version r = "HTTP/0.9" ->
  respond NoCacheHandler_class cwd w (r :: rest)
  = respond SimpleHTTPRequestHandler_class cwd w (r :: rest).
Proof.
  intros Hv. unfold respond.
  destruct (http09_same w (init cwd (r :: rest)) r rest eq_refl Hv)
    as (Hsame & Hc & _).
  destruct (handle_one_request (cls := SimpleHTTPRequestHandler_class) w
              (init cwd (r :: rest))) as [h e] eqn:Hb.
  cbn [fst] in Hc.
  rewrite (handle_once SimpleHTTPRequestHandler_class w (init cwd (r :: rest)) h e
             eq_refl Hb Hc).
  now rewrite (handle_once NoCacheHandler_class w (init cwd (r :: rest)) h e
                 eq_refl Hsame Hc).
Qed.

Lemma plain_no_cache_headers : plain no_cache_headers.
Proof. repeat constructor. Qed.

Lemma plain_nil : plain [].
Proof. constructor. Qed.

(** The handler's document root is the directory it was made with. *)
Lemma respond_directory cwd w requests :
  directory (fst (respond NoCacheHandler_class cwd w requests)) = cwd.
Proof.
  destruct requests as [|r rest]; [reflexivity|].
  destruct (rq_version r =? "HTTP/0.9") eqn:Hv.
  - apply String.eqb_eq in Hv. rewrite (respond_http09 cwd w r rest Hv).
    unfold respond.
    destruct (http09_same w (init cwd (r :: rest)) r rest eq_refl Hv)
      as (_ & Hc & Hd).
    destruct (handle_one_request (cls := SimpleHTTPRequestHandler_class) w
                (init cwd (r :: rest))) as [h e] eqn:Hb.
    cbn [fst] in Hc, Hd.
    now rewrite (handle_once SimpleHTTPRequestHandler_class w (init cwd (r :: rest))
                   h e eq_refl Hb Hc).
  - destruct (respond_answers cwd w r rest Hv)
      as (e & code & message & base & body & log & calls & _ & H).
    change NoCacheHandler_class with (sends no_cache_headers).
    now rewrite (H no_cache_headers plain_no_cache_headers).
Qed.

Lemma respond_nothing cls cwd w :
  respond cls cwd w [] = (init cwd [], None).
Proof. reflexivity. Qed.



End HandlerFacts.

(** ** Strings and joined lines *)

Lemma append_assoc (a b c : string) : (a ++ b) ++ c = a ++ b ++ c.
Proof. induction a as [|x a IH]; cbn; [reflexivity | now rewrite IH]. Qed.

Lemma length_append (a b : string) :
  String.length (a ++ b) = String.length a + String.length b.
Proof. induction a as [|x a IH]; cbn; [reflexivity | now rewrite IH]. Qed.

Lemma append_nil_r (a : string) : a ++ "" = a.
Proof. induction a as [|x a IH]; cbn; [reflexivity | now rewrite IH]. Qed.

Lemma join_cons (x : string) (l : list string) : Py.join (x :: l) = x ++ Py.join l.
Proof.
  unfold Py.join. destruct l; cbn; [now rewrite append_nil_r | reflexivity].
Qed.

Lemma join_app (l1 l2 : list string) : Py.join (l1 ++ l2) = Py.join l1 ++ Py.join l2.
Proof.
  induction l1 as [|x l1 IH]; [reflexivity|].
  cbn [app]. now rewrite !join_cons, IH, append_assoc.
Qed.

(** * The claims *)

(** ** What is read off a response *)

(** The bytes of [response] contain the line of the header [kv]. *)
Definition carries (response : list string) (kv : string * string) : Prop :=
  exists before after, Py.join response = before ++ header_line kv ++ after.

(** The status code of a response that starts with a status line: the
    three digits after the protocol version. *)
Definition digit (c : ascii) : option nat :=
  let n := nat_of_ascii c in
  if ((48 <=? n) && (n <=? 57))%nat then Some (n - 48) else None.

Definition status_of (response : list string) : option nat :=
  match response with
  | block :: _ =>
      if String.prefix "HTTP/1.0 " block then
        match String.get 9 block, String.get 10 block, String.get 11 block with
        | Some a, Some b, Some c =>
            match digit a, digit b, digit c with
            | Some x, Some y, Some z => Some (100 * x + 10 * y + z)
            | _, _, _ => None
            end
        | _, _, _ => None
        end
      else None
  | [] => None
  end.

(** How often a header named [name] occurs among [l]; header names do not
    distinguish case. *)
Definition count_header (name : string) (l : list (string * string)) : nat :=
  List.length (filter (fun kv => Py.lower (fst kv) =? Py.lower name) l).

(** Two handlers agree on every attribute but [wfile]. *)
Definition same_but_wfile (h1 h2 : handler) : Prop :=
  directory h1 = directory h2 /\ rfile h1 = rfile h2 /\ req h1 = req h2 /\
  close_connection h1 = close_connection h2 /\
  _headers_buffer h1 = _headers_buffer h2 /\
  stderr h1 = stderr h2 /\ fs_calls h1 = fs_calls h2.

Section ClaimFacts.
Context {python : Python}.
Import BaseHTTPRequestHandler SimpleHTTPRequestHandler.

Lemma carries_header_block code message base extra body kv :
  In kv extra -> carries (header_block code message base extra :: body) kv.
Proof.
  intros Hin. unfold carries, header_block.
  apply in_split in Hin. destruct Hin as (l1 & l2 & ->).
  rewrite join_cons, join_cons, !join_app, map_app, join_app. cbn [map].
  rewrite join_cons.
  exists (status_line code message ++ Py.join (map header_line base)
          ++ Py.join (map header_line l1)).
  exists ((Py.join (map header_line l2) ++ Py.join [Py.CRLF]) ++ Py.join body).
  now rewrite !append_assoc.
Qed.

Lemma count_header_base name base :
  In name (map fst no_cache_headers) ->
  Forall base_header base ->
  count_header name base = 0.
Proof.
  intros Hn Hb. unfold count_header.
  induction Hb as [|[k v] base Hk _ IH]; [reflexivity|].
  cbn [filter fst].
  replace (Py.lower k =? Py.lower name) with false; [exact IH|].
  unfold base_header in Hk. cbn [fst] in Hk. cbn in Hn.
  repeat (destruct Hn as [<- | Hn]);
    repeat (destruct Hk as [<- | Hk]); try reflexivity; contradiction.
Qed.

Lemma count_header_no_cache name base :
  In name (map fst no_cache_headers) ->
  Forall base_header base ->
  count_header name (base ++ no_cache_headers) = 1.
Proof.
  intros Hn Hb. unfold count_header.
  rewrite filter_app, length_app.
  fold (count_header name base). rewrite (count_header_base name base Hn Hb).
  cbn in Hn. repeat (destruct Hn as [<- | Hn]); try reflexivity; contradiction.
Qed.

End ClaimFacts.

(** ** C1, C2, C10: the three headers *)

Section Headers.
Context {python : Python}.
Import BaseHTTPRequestHandler SimpleHTTPRequestHandler.

(** The answer of NoCacheHandler to a request that is not an HTTP/0.9
    request, for any machine state. *)
Lemma no_cache_answer cwd w r rest :
  rq_version r <> "HTTP/0.9" ->
  exists code message base body,
    Forall base_header base /\
    wfile (fst (respond NoCacheHandler_class cwd w (r :: rest)))
    = header_block code message base no_cache_headers :: body /\
    wfile (fst (respond SimpleHTTPRequestHandler_class cwd w (r :: rest)))
    = header_block code message base [] :: body /\
    same_but_wfile (fst (respond NoCacheHandler_class cwd w (r :: rest)))
      (fst (respond SimpleHTTPRequestHandler_class cwd w (r :: rest))) /\
    snd (respond NoCacheHandler_class cwd w (r :: rest))
    = snd (respond SimpleHTTPRequestHandler_class cwd w (r :: rest)).
Proof.
  intros Hv. apply String.eqb_neq in Hv.
  destruct (respond_answers cwd w r rest Hv)
    as (e & code & message & base & body & log & calls & Hb & H).
  exists code, message, base, body. split; [exact Hb|].
  change NoCacheHandler_class with (sends no_cache_headers).
  change SimpleHTTPRequestHandler_class with (sends []).
  rewrite (H no_cache_headers plain_no_cache_headers), (H [] plain_nil).
  cbn [fst snd]. unfold same_but_wfile. repeat split; reflexivity.
Qed.




End Headers.

(** ** C3, C4, C5: files, missing files, unreadable files *)

Section Files.
Context {python : Python}.
Import BaseHTTPRequestHandler SimpleHTTPRequestHandler.

(** The headers before the three of serve.py on a file sent with 200. *)
Definition file_headers (w : os.t) (fspath : string) (f : os.file)
    : list (string * string) :=
  [("Server", version_string); ("Date", date_time_string (os.time w));
   ("Content-type", guess_type fspath);
   ("Content-Length", Py.str (os.st_size (os.f_stat f)));
   ("Last-Modified", date_time_string (os.st_mtime (os.f_stat f)))].

(** What copyfile writes for a stream: its bytes, in one write, if any. *)
Definition body_writes (s : os.stream) : list string :=
  if os.s_bytes s =? "" then [] else [os.s_bytes s].

Lemma join_body_writes s : Py.join (body_writes s) = os.s_bytes s.
Proof.
  unfold body_writes. destruct (os.s_bytes s =? "") eqn:E; [|reflexivity].
  apply String.eqb_eq in E. now rewrite E.
Qed.

Lemma status_of_header_block code message base extra body :
  (code =? 200)%nat || (code =? 404)%nat = true ->
  status_of (header_block code message base extra :: body) = Some code.
Proof.
  intros Hc. unfold header_block. rewrite join_cons.
  apply orb_true_iff in Hc.
  destruct Hc as [Hc|Hc]; apply Nat.eqb_eq in Hc; subst code; reflexivity.
Qed.

(** A GET request for a file that opens, on a request that is not an
    HTTP/0.9 request and is not answered 304. *)
Lemma respond_get_file extra cwd w r rest f :
  plain extra ->
  rq_command r = "GET" ->
  (rq_version r =? "HTTP/0.9") = false ->
  os.isdir w (translate_path cwd (rq_path r)) = false ->
  Py.endswith (translate_path cwd (rq_path r)) "/" = false ->
  os.open_rb w (translate_path cwd (rq_path r)) = Some f ->
  not_modified_since (rq_headers r) (os.f_stat f) = false ->
  respond (sends extra) cwd w (r :: rest)
  = (responded extra 200 "OK" (file_headers w (translate_path cwd (rq_path r)) f)
       (body_writes (os.f_stream f))
       [log_line 200 (parse_request r rest (init cwd (r :: rest)))]
       [fs_open (translate_path cwd (rq_path r))] true
       (parse_request r rest (init cwd (r :: rest))),
     if os.s_fails (os.f_stream f) then Some OSError else None).
Proof.
  intros Hp Hget Hv Hd Hs Ho Hm. unfold respond.
  apply handle_once; [reflexivity | | reflexivity].
  unfold handle_one_request. cbn [rfile init].
  set (self := parse_request r rest _).
  change (Self.command self) with (rq_command r). rewrite Hget. cbn [String.eqb Ascii.eqb Bool.eqb].
  unfold do_GET, send_head.
  change (directory self) with cwd. change (Self.path self) with (rq_path r).
  rewrite Hd.
  rewrite (send_head_file_ok extra w self Hv Hp eq_refl eq_refl _ f Hs Ho Hm).
  apply copyfile_responded.
Qed.

(** The same request sent as an HTTP/0.9 request: the file and nothing
    else. *)
Lemma respond_get_file_http09 cwd w r rest f :
  rq_command r = "GET" ->
  rq_version r = "HTTP/0.9" ->
  os.isdir w (translate_path cwd (rq_path r)) = false ->
  Py.endswith (translate_path cwd (rq_path r)) "/" = false ->
  os.open_rb w (translate_path cwd (rq_path r)) = Some f ->
  not_modified_since (rq_headers r) (os.f_stat f) = false ->
  wfile (fst (respond NoCacheHandler_class cwd w (r :: rest)))
  = body_writes (os.f_stream f) /\
  snd (respond NoCacheHandler_class cwd w (r :: rest))
  = if os.s_fails (os.f_stream f) then Some OSError else None.
Proof.
  intros Hget Hv Hd Hs Ho Hm.
  destruct r as [line cmd pth ver hdrs]. cbn in Hget, Hv, Hd, Hs, Ho, Hm. subst cmd ver.
  unfold respond.
  match goal with |- context [handle w ?s] => set (self := s) end.
  destruct (handle_one_request (cls := NoCacheHandler_class) w self)
    as [h e] eqn:H1.
  assert (H2 : wfile h = body_writes (os.f_stream f) /\
               e = (if os.s_fails (os.f_stream f) then Some OSError else None) /\
               close_connection h = true).
  { revert H1. unfold self.
    unfold handle_one_request, do_GET, send_head, send_head_file, body_writes,
      copyfile, parse_request, set_request, set_close_connection, record_call,
      Self.path, Self.command, Self.headers, init.
    cbn [rfile directory req rq_path rq_command rq_headers close_connection
         _headers_buffer wfile stderr fs_calls String.eqb Ascii.eqb Bool.eqb].
    rewrite Hd, Hs, Ho, Hm.
    destruct (os.s_bytes (os.f_stream f) =? ""); intros [= <- <-];
      repeat split; reflexivity. }
  destruct H2 as (Hw & He & Hc).
  rewrite (handle_once NoCacheHandler_class w self h e eq_refl H1 Hc).
  cbn [fst snd]. now split.
Qed.

(** A GET or HEAD request for a path that is no directory and does not
    open. *)
Lemma respond_not_found extra cwd w r rest :
  plain extra ->
  rq_command r = "GET" \/ rq_command r = "HEAD" ->
  (rq_version r =? "HTTP/0.9") = false ->
  os.isdir w (translate_path cwd (rq_path r)) = false ->
  os.open_rb w (translate_path cwd (rq_path r)) = None ->
  respond (sends extra) cwd w (r :: rest)
  = (responded extra 404 "File not found" (error_headers w 404 "File not found")
       (if rq_command r =? "HEAD" then [] else [error_page 404 "File not found"])
       (error_log 404 "File not found" (parse_request r rest (init cwd (r :: rest))))
       (if Py.endswith (translate_path cwd (rq_path r)) "/" then []
        else [fs_open (translate_path cwd (rq_path r))])
       true (parse_request r rest (init cwd (r :: rest))),
     None).
Proof.
  intros Hp Hcmd Hv Hd Ho. unfold respond.
  apply handle_once; [reflexivity | | reflexivity].
  unfold handle_one_request. cbn [rfile init].
  set (self := parse_request r rest _).
  change (Self.command self) with (rq_command r).
  assert (Hhead : send_head (cls := sends extra) w self
                  = (responded extra 404 "File not found"
                       (error_headers w 404 "File not found")
                       (if rq_command r =? "HEAD" then []
                        else [error_page 404 "File not found"])
                       (error_log 404 "File not found" self)
                       (if Py.endswith (translate_path cwd (rq_path r)) "/" then []
                        else [fs_open (translate_path cwd (rq_path r))])
                       true self, None)).
  { unfold send_head.
    change (directory self) with cwd. change (Self.path self) with (rq_path r).
    rewrite Hd.
    destruct (Py.endswith (translate_path cwd (rq_path r)) "/") eqn:Hs.
    - now rewrite (send_head_file_slash extra w self Hv Hp eq_refl _ Hs).
    - now rewrite (send_head_file_missing extra w self Hv Hp eq_refl eq_refl _ Hs Ho). }
  destruct Hcmd as [Hc|Hc]; rewrite Hc in *; cbn [String.eqb Ascii.eqb Bool.eqb];
    unfold do_GET, do_HEAD; now rewrite Hhead.
Qed.

(** A GET request for a file that opens, with an If-Modified-Since date
    at or after the time the file was last written: 304, and no body. *)
Lemma respond_not_modified extra cwd w r rest f :
  plain extra ->
  rq_command r = "GET" ->
  (rq_version r =? "HTTP/0.9") = false ->
  os.isdir w (translate_path cwd (rq_path r)) = false ->
  Py.endswith (translate_path cwd (rq_path r)) "/" = false ->
  os.open_rb w (translate_path cwd (rq_path r)) = Some f ->
  not_modified_since (rq_headers r) (os.f_stat f) = true ->
  respond (sends extra) cwd w (r :: rest)
  = (responded extra 304 "Not Modified"
       [("Server", version_string); ("Date", date_time_string (os.time w))]
       [] [log_line 304 (parse_request r rest (init cwd (r :: rest)))]
       [fs_open (translate_path cwd (rq_path r))] true
       (parse_request r rest (init cwd (r :: rest))),
     None).
Proof.
  intros Hp Hget Hv Hd Hs Ho Hm. unfold respond.
  apply handle_once; [reflexivity | | reflexivity].
  unfold handle_one_request. cbn [rfile init].
  set (self := parse_request r rest _).
  change (Self.command self) with (rq_command r). rewrite Hget.
  cbn [String.eqb Ascii.eqb Bool.eqb].
  unfold do_GET, send_head.
  change (directory self) with cwd. change (Self.path self) with (rq_path r).
  rewrite Hd.
  now rewrite (send_head_file_not_modified extra w self Hv Hp eq_refl eq_refl _ f
                 Hs Ho Hm).
Qed.

(** A request with a method other than GET and HEAD: 501, whatever the
    path. *)
Lemma respond_unsupported extra cwd w r rest :
  plain extra ->
  (rq_command r =? "GET") = false ->
  (rq_command r =? "HEAD") = false ->
  (rq_version r =? "HTTP/0.9") = false ->
  respond (sends extra) cwd w (r :: rest)
  = (responded extra 501 ("Unsupported method (" ++ repr (rq_command r) ++ ")")
       (error_headers w 501 ("Unsupported method (" ++ repr (rq_command r) ++ ")"))
       [error_page 501 ("Unsupported method (" ++ repr (rq_command r) ++ ")")]
       (error_log 501 ("Unsupported method (" ++ repr (rq_command r) ++ ")")
          (parse_request r rest (init cwd (r :: rest))))
       [] true (parse_request r rest (init cwd (r :: rest))),
     None).
Proof.
  intros Hp Hget Hhead Hv. unfold respond.
  apply handle_once; [reflexivity | | reflexivity].
  unfold handle_one_request. cbn [rfile init].
  set (self := parse_request r rest _).
  change (Self.command self) with (rq_command r). rewrite Hget, Hhead.
  f_equal.
  rewrite (unsupported_method extra w self Hv Hp eq_refl).
  change (Self.command self) with (rq_command r). now rewrite Hhead.
Qed.

End Files.

Section FileClaims.
Context {python : Python}.
Import BaseHTTPRequestHandler SimpleHTTPRequestHandler.




End FileClaims.

(** ** C6, C7, C8, C9: the process *)

(** An address of the IPv4 loopback block, 127.0.0.0/8. *)
Definition is_loopback (host : string) : bool := String.prefix "127." host.

Definition startup_line : string := "Dev server: http://localhost:3000 (no-cache)".

Section Process.
Context {python : Python}.
Import BaseHTTPRequestHandler SimpleHTTPRequestHandler.

(** The writes made on the connection [c] by a handler of class [cls]
    in the directory [cwd]. *)
Definition answer (cls : Self.methods) (cwd : string) (c : connection)
    : list string :=
  wfile (fst (respond cls cwd (c_os c) (c_requests c))).

Lemma handle_request_noblock_spec srv c p :
  getcwd (BaseServer._handle_request_noblock srv c p) = getcwd p /\
  stdout (BaseServer._handle_request_noblock srv c p) = stdout p /\
  bind_calls (BaseServer._handle_request_noblock srv c p) = bind_calls p /\
  listening (BaseServer._handle_request_noblock srv c p) = listening p /\
  exit_status (BaseServer._handle_request_noblock srv c p) = exit_status p /\
  sent (BaseServer._handle_request_noblock srv c p)
  = (sent p ++ [answer (RequestHandlerClass srv) (getcwd p) c])%list.
Proof.
  unfold BaseServer._handle_request_noblock, BaseServer.finish_request, answer, respond.
  destruct (handle (c_os c) (init (getcwd p) (c_requests c))) as [h [e|]];
    cbn; repeat split; reflexivity.
Qed.

(** The serve loop keeps the process alive and its settings as they are,
    and answers the connections one by one; each answer is that of a fresh
    handler on that connection alone. *)
Lemma serve_forever_spec srv arrivals : forall p,
  getcwd (BaseServer.serve_forever srv arrivals p) = getcwd p /\
  stdout (BaseServer.serve_forever srv arrivals p) = stdout p /\
  bind_calls (BaseServer.serve_forever srv arrivals p) = bind_calls p /\
  listening (BaseServer.serve_forever srv arrivals p) = listening p /\
  exit_status (BaseServer.serve_forever srv arrivals p) = exit_status p /\
  sent (BaseServer.serve_forever srv arrivals p)
  = (sent p ++ map (answer (RequestHandlerClass srv) (getcwd p)) arrivals)%list.
Proof.
  unfold BaseServer.serve_forever.
  induction arrivals as [|c arrivals IH]; intros p; cbn [fold_left map].
  - rewrite app_nil_r. repeat split; reflexivity.
  - destruct (IH (BaseServer._handle_request_noblock srv c p))
      as (H1 & H2 & H3 & H4 & H5 & H6).
    destruct (handle_request_noblock_spec srv c p)
      as (G1 & G2 & G3 & G4 & G5 & G6).
    rewrite H1, H2, H3, H4, H5, H6, G1, G2, G3, G4, G5, G6.
    rewrite <- app_assoc. repeat split; reflexivity.
Qed.

Lemma main_bound n arrivals cwd :
  bind_ok n ("127.0.0.1", 3000) = true ->
  listen_ok n = true ->
  main n arrivals (start cwd)
  = BaseServer.serve_forever
      {| server_address := ("127.0.0.1", 3000);
         RequestHandlerClass := NoCacheHandler_class |}
      arrivals
      {| getcwd := cwd; stdout := [startup_line ++ Py.NL]; sys_stderr := [];
         bind_calls := [("127.0.0.1", 3000)];
         listening := Some ("127.0.0.1", 3000); sent := []; exit_status := None |}.
Proof.
  intros Hb Hl. unfold main, TCPServer.init, TCPServer.server_bind,
    TCPServer.server_activate.
  rewrite Hb, Hl. reflexivity.
Qed.

Lemma main_not_bound n arrivals cwd :
  bind_ok n ("127.0.0.1", 3000) && listen_ok n = false ->
  main n arrivals (start cwd)
  = {| getcwd := cwd; stdout := [];
       sys_stderr := ["Traceback (most recent call last):"; "OSError"];
       bind_calls := [("127.0.0.1", 3000)];
       listening := None; sent := []; exit_status := Some 1 |}.
Proof.
  intros H. unfold main, TCPServer.init, TCPServer.server_bind,
    TCPServer.server_activate.
  destruct (bind_ok n ("127.0.0.1", 3000)); [|reflexivity].
  cbn in H. rewrite H. reflexivity.
Qed.


(** C7: the one socket the process binds is 127.0.0.1, a loopback
    address, port 3000; once it listens there it listens there whatever
    arrives; the working directory of the process stays what it was at the
    start, and every connection is answered by a handler whose document root
    is that directory. *)
Theorem listens_on_loopback_3000_and_serves_cwd n arrivals cwd :
  bind_calls (main n arrivals (start cwd)) = [("127.0.0.1", 3000)] /\
  is_loopback "127.0.0.1" = true /\
  getcwd (main n arrivals (start cwd)) = cwd /\
  listening (main n arrivals (start cwd))
  = (if bind_ok n ("127.0.0.1", 3000) && listen_ok n
     then Some ("127.0.0.1", 3000) else None) /\
  sent (main n arrivals (start cwd))
  = (if bind_ok n ("127.0.0.1", 3000) && listen_ok n
     then map (answer NoCacheHandler_class cwd) arrivals else []) /\
  forall w requests,
    directory (fst (respond NoCacheHandler_class cwd w requests)) = cwd.
Proof.
  assert (Hdir : forall w requests,
             directory (fst (respond NoCacheHandler_class cwd w requests)) = cwd)
    by (intros; apply respond_directory).
  destruct (bind_ok n ("127.0.0.1", 3000) && listen_ok n) eqn:H.
  - apply andb_true_iff in H. destruct H as [Hb Hl].
    rewrite (main_bound n arrivals cwd Hb Hl).
    destruct (serve_forever_spec
                {| server_address := ("127.0.0.1", 3000);
                   RequestHandlerClass := NoCacheHandler_class |} arrivals
                {| getcwd := cwd; stdout := [startup_line ++ Py.NL]; sys_stderr := [];
                   bind_calls := [("127.0.0.1", 3000)];
                   listening := Some ("127.0.0.1", 3000); sent := [];
                   exit_status := None |})
      as (H1 & _ & H3 & H4 & _ & H6).
    rewrite H1, H3, H4, H6. repeat split; try reflexivity; apply Hdir.
  - rewrite (main_not_bound n arrivals cwd H). repeat split; try reflexivity; apply Hdir.
Qed.



End Process.

(** ** The claims on the sample machine

    The theorems applied to concrete requests, and the requests on which
    the statements of the specification fail. *)
Module OnSample.

(** The document root at ten past midnight, app.js last written at
    00:01:40. *)
Definition disk : os.t := Sample.root 600 "let x = 1;" 100.

(** A minute later, app.js has been rewritten at 00:03:20. *)
Definition disk_later : os.t := Sample.root 660 "let x = 2;" 200.

(** A disk on which reading app.js fails after five bytes. *)
Definition disk_failing : os.t :=
  {| os.time := 600;
     os.isdir := os.isdir disk;
     os.isfile := os.isfile disk;
     os.open_rb := fun p =>
       if p =? "/srv/app.js" then
         Some {| os.f_stream := {| os.s_bytes := "let x"; os.s_fails := true |};
                 os.f_stat := {| os.st_size := 10; os.st_mtime := 100 |} |}
       else None;
     os.listdir := os.listdir disk |}.

(** The handler of serve.py on a connection that carries the one request
    [r], in the directory /srv. *)
Definition respond_to (w : os.t) (r : request) : handler * option exn :=
  respond (python := Sample.python) NoCacheHandler_class "/srv" w [r].

Definition if_modified_since : list (string * string) :=
  [("If-Modified-Since", "Thu, 01 Jan 1970 00:05:00 GMT")].

Definition network_up : net := {| bind_ok := fun _ => true; listen_ok := true |}.
Definition port_taken : net := {| bind_ok := fun _ => false; listen_ok := true |}.












(** The same request on two connections, the file rewritten in between. *)
Definition twice (headers : list (string * string)) : list connection :=
  [{| c_os := disk; c_requests := [Sample.get "HTTP/1.1" "/app.js" headers] |};
   {| c_os := disk_later; c_requests := [Sample.get "HTTP/1.1" "/app.js" headers] |}].

Definition dev_server : server :=
  {| server_address := ("127.0.0.1", 3000); RequestHandlerClass := NoCacheHandler_class |}.



End OnSample.

(** * More on the override and the handler *)

Section Override.
Context {python : Python}.
Import BaseHTTPRequestHandler SimpleHTTPRequestHandler.

(** X1: whatever the header buffer holds when it is called, end_headers
    of serve.py puts the three lines after it, in the order Cache-Control,
    Pragma, Expires, adds the blank line, writes all of it to the socket in
    one write and leaves the buffer empty; no other attribute of the handler
    changes: the connection is not switched to close or keep-alive, nothing
    is logged, no request is read. *)
Theorem end_headers_appends_and_flushes self :
  Self.request_version self <> "HTTP/0.9" ->
  NoCacheHandler.end_headers self
  = {| directory := directory self; rfile := rfile self; req := req self;
       close_connection := close_connection self;
       _headers_buffer := [];
       wfile :=
         (wfile self ++
          [Py.join
             (_headers_buffer self ++
              [header_line ("Cache-Control", "no-cache, no-store, must-revalidate");
               header_line ("Pragma", "no-cache");
               header_line ("Expires", "0");
               Py.CRLF])])%list;
       stderr := stderr self; fs_calls := fs_calls self |}.
Proof.
  intros Hv. apply String.eqb_neq in Hv.
  change (NoCacheHandler.end_headers self)
    with (Self.end_headers (methods := sends no_cache_headers) self).
  rewrite (end_headers_sends no_cache_headers self Hv plain_no_cache_headers).
  now destruct self.
Qed.

(** X2: on a handler whose request is an HTTP/0.9 request, end_headers
    of serve.py does nothing at all: no header is buffered, nothing is
    written, the buffer is not flushed. *)
Theorem end_headers_http09_does_nothing self :
  Self.request_version self = "HTTP/0.9" ->
  NoCacheHandler.end_headers self = self.
Proof.
  intros Hv. apply String.eqb_eq in Hv.
  assert (H : forall k v,
             (Py.lower k =? "connection") = false -> send_header k v self = self).
  { intros k v Hk. unfold send_header. now rewrite Hv, Hk. }
  unfold NoCacheHandler.end_headers.
  rewrite !H by reflexivity.
  unfold end_headers. now rewrite Hv.
Qed.

(** X6: end_headers of serve.py is not idempotent.  Called a second
    time it finds the buffer empty and writes a second block, which holds the
    three headers and the blank line and nothing else. *)
Theorem end_headers_twice_writes_twice self :
  Self.request_version self <> "HTTP/0.9" ->
  wfile (NoCacheHandler.end_headers (NoCacheHandler.end_headers self))
  = (wfile self ++
     [Py.join (_headers_buffer self ++ map header_line no_cache_headers ++ [Py.CRLF]);
      Py.join (map header_line no_cache_headers ++ [Py.CRLF])])%list /\
  _headers_buffer (NoCacheHandler.end_headers (NoCacheHandler.end_headers self)) = [].
Proof.
  intros Hv. apply String.eqb_neq in Hv.
  change (NoCacheHandler.end_headers (NoCacheHandler.end_headers self))
    with (Self.end_headers (methods := sends no_cache_headers)
            (Self.end_headers (methods := sends no_cache_headers) self)).
  rewrite (end_headers_sends no_cache_headers self Hv plain_no_cache_headers).
  rewrite (end_headers_sends no_cache_headers
             (set_headers_buffer [] (write _ self)) Hv plain_no_cache_headers).
  destruct self as [d rf rq cc buf wf err calls].
  cbn [wfile _headers_buffer set_headers_buffer write app].
  now rewrite <- app_assoc.
Qed.

End Override.

Section Answers.
Context {python : Python}.
Import BaseHTTPRequestHandler SimpleHTTPRequestHandler.

(** What send_head leaves behind under the class of serve.py, for a
    request that is not an HTTP/0.9 request: one header block; a body (the
    error page) only when the request is no HEAD request; a stream to copy
    only after the status 200, with nothing of the body written yet; and at
    most one call that opens a file or lists a directory; the last line
    logged is the request line with the status sent. *)
Definition head_sent (self : handler) (out : handler * option os.stream) : Prop :=
  exists code message base body log calls,
    Forall base_header base /\
    out = (responded no_cache_headers code message base body log calls true self,
           snd out) /\
    (Self.command self = "HEAD" -> body = []) /\
    (snd out <> None -> code = 200 /\ body = []) /\
    List.length calls <= 1 /\
    exists earlier, log = (earlier ++ [log_line code self])%list.

Ltac head_sent_by lemma :=
  erewrite lemma by first [eassumption | exact plain_no_cache_headers | reflexivity];
  unfold head_sent; do 6 eexists;
  split; [| split; [reflexivity|] ]; cycle 1;
  [ split;
    [ intros Hh; unfold not_found_body; try rewrite Hh; reflexivity
    | split;
      [ cbn [snd]; intros Hn; first [now elim Hn | now split]
      | split;
        [ cbn [List.length]; lia
        | first [now exists [] | now eexists [_]] ] ] ]
  | unfold error_headers; repeat constructor; cbn; tauto ].

Section SentCases.
Variables (w : os.t) (self : handler).
Hypothesis Hv : (Self.request_version self =? "HTTP/0.9") = false.
Hypothesis Hbuf : _headers_buffer self = [].
Hypothesis Hcc : close_connection self = true.

Lemma send_head_file_sent fspath :
  head_sent self (send_head_file (cls := sends no_cache_headers) w fspath self).
Proof.
  destruct (Py.endswith fspath "/") eqn:Hs.
  - head_sent_by send_head_file_slash.
  - destruct (os.open_rb w fspath) as [f|] eqn:Ho.
    + destruct (not_modified_since (Self.headers self) (os.f_stat f)) eqn:Hm.
      * head_sent_by send_head_file_not_modified.
      * head_sent_by send_head_file_ok.
    + head_sent_by send_head_file_missing.
Qed.

Lemma list_directory_sent fspath :
  head_sent self (list_directory (cls := sends no_cache_headers) w fspath self).
Proof.
  destruct (os.listdir w fspath) as [entries|] eqn:Hl.
  - head_sent_by list_directory_ok.
  - head_sent_by list_directory_denied.
Qed.

Lemma send_head_sent :
  head_sent self (send_head (cls := sends no_cache_headers) w self).
Proof.
  destruct (os.isdir w (translate_path (directory self) (Self.path self))) eqn:Hd.
  - destruct (Py.endswith (sr_path (urlsplit (Self.path self))) "/") eqn:Hs.
    + unfold send_head. rewrite Hd, Hs. cbn [negb].
      destruct (find_index w (translate_path (directory self) (Self.path self))).
      * apply send_head_file_sent.
      * apply list_directory_sent.
    + head_sent_by send_head_redirect.
  - unfold send_head. rewrite Hd. apply send_head_file_sent.
Qed.

End SentCases.


(** An exception can only come out of do_GET, whatever the class. *)
Lemma raises_only_in_get (cls : Self.methods) w self r rest e :
  rfile self = r :: rest ->
  snd (handle_one_request (cls := cls) w self) = Some e ->
  rq_command r = "GET".
Proof.
  intros Hr. unfold handle_one_request. rewrite Hr.
  change (Self.command (parse_request r rest self)) with (rq_command r).
  destruct (rq_command r =? "GET") eqn:Hget; [now apply String.eqb_eq in Hget|].
  destruct (rq_command r =? "HEAD").
  - unfold do_HEAD. now destruct (send_head w (parse_request r rest self)).
  - discriminate.
Qed.

(** The first request is the only one handled (the request is not an
    HTTP/0.9 request). *)
Lemma respond_is_first cwd w r rest :
  (rq_version r =? "HTTP/0.9") = false ->
  respond (sends no_cache_headers) cwd w (r :: rest)
  = handle_one_request (cls := sends no_cache_headers) w (init cwd (r :: rest)).
Proof.
  intros Hv.
  destruct (handle_one_request_answers w (init cwd (r :: rest)) r rest
              eq_refl Hv eq_refl)
    as (e & code & message & base & body & log & calls & _ & H).
  specialize (H no_cache_headers plain_no_cache_headers). cbv beta in H.
  unfold respond. rewrite H.
  apply handle_once; [reflexivity | exact H | reflexivity].
Qed.





End Answers.

Section Connection.
Context {python : Python}.
Import BaseHTTPRequestHandler SimpleHTTPRequestHandler.

Lemma rfile_end_headers self :
  rfile (BaseHTTPRequestHandler.end_headers self) = rfile self.
Proof.
  unfold BaseHTTPRequestHandler.end_headers.
  now destruct (negb (Self.request_version self =? "HTTP/0.9")).
Qed.

Lemma rfile_send_header k v self : rfile (send_header k v self) = rfile self.
Proof.
  unfold send_header.
  destruct (negb (Self.request_version self =? "HTTP/0.9"));
    destruct (Py.lower k =? "connection"); try reflexivity;
    destruct (Py.lower v =? "close"); try reflexivity;
    destruct (Py.lower v =? "keep-alive"); reflexivity.
Qed.

Lemma send_error_rfile w code message explain self :
  rfile
    (send_error (cls := SimpleHTTPRequestHandler_class) w code message explain self)
  = rfile self.
Proof.
  unfold send_error.
  destruct (responses code) as [[short long]|];
    destruct ((200 <=? code) && negb ((code =? 204) || (code =? 205) || (code =? 304)))%nat;
    cbv zeta;
    repeat match goal with
    | |- context [if ?c then write ?b ?s else ?s] =>
        replace (rfile (if c then write b s else s))
          with (rfile s) by (now destruct c)
    end;
    cbn [Self.end_headers SimpleHTTPRequestHandler_class];
    rewrite rfile_end_headers;
    rewrite ?rfile_send_header;
    unfold send_response; rewrite ?rfile_send_header;
    unfold send_response_only;
    now destruct (negb (Self.request_version _ =? "HTTP/0.9")).
Qed.

(** On an HTTP/0.9 request too, one request is taken off the connection. *)
Lemma http09_reads_one w self r rest :
  rfile self = r :: rest ->
  rq_version r = "HTTP/0.9" ->
  rfile (fst (handle_one_request (cls := SimpleHTTPRequestHandler_class) w self))
  = rest.
Proof.
  intros Hr Hv.
  destruct self as [d rf rq cc buf wf err calls].
  destruct r as [line cmd pth ver hdrs]. cbn in Hr, Hv. subst rf ver.
  unfold handle_one_request. cbn [rfile].
  unfold parse_request, set_request, set_close_connection, Self.command.
  cbn [req rq_command directory rfile close_connection _headers_buffer wfile
       stderr fs_calls].
  destruct (cmd =? "GET") eqn:Hget; [| destruct (cmd =? "HEAD") eqn:Hhead].
  3: { cbn [fst]. apply send_error_rfile. }
  all: unfold do_GET, do_HEAD, send_head; cbn [directory Self.path req rq_path].
  all: destruct (os.isdir w _).
  all: try destruct (Py.endswith (sr_path _) "/"); cbn [negb].
  all: try destruct (find_index w _).
  all: unfold send_head_file, list_directory.
  all: try destruct (Py.endswith _ "/").
  all: try destruct (os.open_rb w _); try destruct (os.listdir w _).
  all: try destruct (not_modified_since _ _).
  all: unfold copyfile.
  all: try match goal with
       | |- context [os.s_bytes ?f =? ""] => destruct (os.s_bytes f =? "")
       end.
  all: first [reflexivity | cbn [fst]; apply send_error_rfile].
Qed.


End Connection.

Section Paths.
Context {python : Python}.
Import BaseHTTPRequestHandler SimpleHTTPRequestHandler.

(** The answer to a GET or HEAD request, from what send_head leaves
    behind: do_GET copies the stream that send_head returns, do_HEAD drops
    it. *)
Lemma respond_send_head extra cwd w r rest code message base body log calls res :
  rq_command r = "GET" \/ rq_command r = "HEAD" ->
  send_head (cls := sends extra) w (parse_request r rest (init cwd (r :: rest)))
  = (responded extra code message base body log calls true
       (parse_request r rest (init cwd (r :: rest))), res) ->
  respond (sends extra) cwd w (r :: rest)
  = (responded extra code message base
       (body ++ match res with
                | Some f => if rq_command r =? "GET" then body_writes f else []
                | None => []
                end)%list
       log calls true (parse_request r rest (init cwd (r :: rest))),
     match res with
     | Some f =>
         if rq_command r =? "GET"
         then (if os.s_fails f then Some OSError else None)
         else None
     | None => None
     end).
Proof.
  intros Hcmd H. unfold respond.
  apply handle_once; [reflexivity | | reflexivity].
  unfold handle_one_request. cbn [rfile init].
  change (Self.command (parse_request r rest (init cwd (r :: rest))))
    with (rq_command r).
  destruct Hcmd as [Hc|Hc]; rewrite Hc; cbn [String.eqb Ascii.eqb Bool.eqb];
    unfold do_GET, do_HEAD; rewrite H; destruct res as [f|];
    rewrite ?copyfile_responded, ?app_nil_r; reflexivity.
Qed.

(** The test of send_head for 304, from its parts. *)
Lemma not_modified_since_true headers fs value d :
  Py.get headers "If-Modified-Since" = Some value ->
  Py.contains headers "If-None-Match" = false ->
  parsedate_to_datetime value = Some d ->
  dt_tzinfo d <> tz_other ->
  (os.st_mtime fs <= dt_seconds d)%Z ->
  not_modified_since headers fs = true.
Proof.
  intros Hget Hinm Hparse Htz Hle. unfold not_modified_since.
  unfold Py.contains in *. rewrite Hget.
  destruct (Py.get headers "If-None-Match"); [discriminate|].
  cbn [andb negb]. rewrite Hparse.
  destruct (dt_tzinfo d) eqn:E; cbn [dt_tzinfo dt_seconds]; rewrite ?E;
    solve [now apply Z.leb_le | now elim Htz].
Qed.

Lemma not_modified_since_false headers fs :
  Py.contains headers "If-None-Match" = true \/
  (forall value d,
     Py.get headers "If-Modified-Since" = Some value ->
     parsedate_to_datetime value = Some d ->
     dt_tzinfo d = tz_other) ->
  not_modified_since headers fs = false.
Proof.
  intros H. unfold not_modified_since.
  destruct H as [H|H].
  - rewrite H. cbn [negb]. now rewrite andb_false_r.
  - destruct (Py.contains headers "If-Modified-Since"
              && negb (Py.contains headers "If-None-Match")); [|reflexivity].
    destruct (Py.get headers "If-Modified-Since") as [value|]; [|reflexivity].
    destruct (parsedate_to_datetime value) as [d|] eqn:Hparse; [|reflexivity].
    rewrite (H value d eq_refl Hparse). cbn iota.
    now rewrite (H value d eq_refl Hparse).
Qed.

(** No index file has a name that ends with a slash. *)
Lemma endswith_slash_app a c b :
  Py.endswith (a ++ String c b) "/" = Py.endswith (String c b) "/".
Proof.
  induction a as [|x a IH]; [reflexivity|].
  cbn [append]. cbn [Py.endswith]. fold (Py.endswith (a ++ String c b) "/").
  rewrite IH.
  replace (String x (a ++ String c b) =? "/") with false; [reflexivity|].
  symmetry. apply String.eqb_neq. intros [= _ E]. now destruct a.
Qed.

Lemma find_index_is_no_directory_name w path index :
  find_index w path = Some index ->
  Py.endswith index "/" = false /\
  os.isfile w index = true /\
  (index = Py.path_join path "index.html" \/
   os.isfile w (Py.path_join path "index.html") = false /\
   index = Py.path_join path "index.htm").
Proof.
  unfold find_index.
  assert (E : forall name c b, name = String c b ->
                String.prefix "/" name = false ->
                Py.endswith name "/" = false ->
                Py.endswith (Py.path_join path name) "/" = false).
  { intros name c b -> Hpre Hend. unfold Py.path_join. rewrite Hpre.
    destruct ((path =? "") || Py.endswith path "/").
    - now rewrite endswith_slash_app.
    - change (path ++ "/" ++ String c b) with (path ++ String "/" (String c b)).
      rewrite endswith_slash_app. cbn [Py.endswith] in *.
      fold (Py.endswith (String c b) "/") in *. now rewrite Hend. }
  destruct (os.isfile w (Py.path_join path "index.html")) eqn:H1.
  - intros [= <-]. split; [|split; [exact H1 | now left]].
    now eapply E.
  - destruct (os.isfile w (Py.path_join path "index.htm")) eqn:H2; [|discriminate].
    intros [= <-]. split; [|split; [exact H2 | now right]].
    now eapply E.
Qed.

Section Request.
Variables (cwd : string) (w : os.t) (r : request) (rest : list request).
Hypothesis Hv : rq_version r <> "HTTP/0.9".

Let fspath := translate_path cwd (rq_path r).






End Request.
End Paths.

(** ** The further properties on the sample machine *)
Module OnSite.
Import OnSample.

(** A handler that has parsed GET /app.js HTTP/1.1 and buffered a status
    line, and one that has parsed the HTTP/0.9 request GET /app.js. *)
Definition ready : handler :=
  {| directory := "/srv"; rfile := [];
     req := Sample.get "HTTP/1.1" "/app.js" [];
     close_connection := true;
     _headers_buffer := [status_line 200 "OK"];
     wfile := []; stderr := []; fs_calls := [] |}.

Definition old_style : handler :=
  {| directory := "/srv"; rfile := [];
     req := Sample.get "HTTP/0.9" "/app.js" [];
     close_connection := true;
     _headers_buffer := [];
     wfile := []; stderr := []; fs_calls := [] |}.

(** The document root with three directories: docs, which holds an
    index.html; img, which holds a picture and no index; and private, which
    the server process may not list. *)
Definition site : os.t :=
  {| os.time := 600;
     os.isdir := fun p =>
       existsb (String.eqb p)
         ["/srv"; "/srv/"; "/srv/docs"; "/srv/docs/"; "/srv/img"; "/srv/img/";
          "/srv/private"; "/srv/private/"];
     os.isfile := fun p =>
       existsb (String.eqb p) ["/srv/app.js"; "/srv/docs/index.html"; "/srv/img/a.png"];
     os.open_rb := fun p =>
       if p =? "/srv/docs/index.html" then
         Some {| os.f_stream := {| os.s_bytes := "<h1>Docs</h1>"; os.s_fails := false |};
                 os.f_stat := {| os.st_size := 13; os.st_mtime := 100 |} |}
       else os.open_rb disk p;
     os.listdir := fun p =>
       if (p =? "/srv/img") || (p =? "/srv/img/") then Some ["a.png"] else None |}.

Definition app_js : os.file :=
  {| os.f_stream := {| os.s_bytes := "let x = 1;"; os.s_fails := false |};
     os.f_stat := {| os.st_size := 10; os.st_mtime := 100 |} |}.

Definition index_html : os.file :=
  {| os.f_stream := {| os.s_bytes := "<h1>Docs</h1>"; os.s_fails := false |};
     os.f_stat := {| os.st_size := 13; os.st_mtime := 100 |} |}.

(** X1, witness: the handler that has buffered the status line 200. *)
Lemma end_headers_appends_and_flushes_on_ready :
  Self.request_version ready <> "HTTP/0.9" /\
  NoCacheHandler.end_headers ready
  = {| directory := "/srv"; rfile := [];
       req := Sample.get "HTTP/1.1" "/app.js" [];
       close_connection := true;
       _headers_buffer := [];
       wfile :=
         [Py.join
            [status_line 200 "OK";
             header_line ("Cache-Control", "no-cache, no-store, must-revalidate");
             header_line ("Pragma", "no-cache");
             header_line ("Expires", "0");
             Py.CRLF]];
       stderr := []; fs_calls := [] |}.
Proof.
  split; [discriminate|].
  apply (end_headers_appends_and_flushes ready). discriminate.
Defined.

(** X2, witness: the handler of an HTTP/0.9 request. *)
Lemma end_headers_does_nothing_on_old_style :
  Self.request_version old_style = "HTTP/0.9" /\
  NoCacheHandler.end_headers old_style = old_style.
Proof.
  split; [reflexivity|].
  apply (end_headers_http09_does_nothing old_style). reflexivity.
Defined.

(** X6, witness: end_headers called twice on [ready]. *)
Lemma end_headers_twice_on_ready :
  Self.request_version ready <> "HTTP/0.9" /\
  wfile (NoCacheHandler.end_headers (NoCacheHandler.end_headers ready))
  = [Py.join ([status_line 200 "OK"] ++ map header_line no_cache_headers ++ [Py.CRLF]);
     Py.join (map header_line no_cache_headers ++ [Py.CRLF])]%list /\
  _headers_buffer (NoCacheHandler.end_headers (NoCacheHandler.end_headers ready)) = [].
Proof.
  split; [discriminate|].
  apply (end_headers_twice_writes_twice ready). discriminate.
Defined.











End OnSite.
